(** * cfac: the [make] command of setup.py

    A shallow embedding of the [Make] command class of [setup.py] (the
    build orchestration that drives autoconf, configure and make), and
    the properties of it that the specification states.

    The class only sequences external processes, so the embedding is a
    small monad that threads the record of what the program asked of the
    operating system (processes started and waited for, bytes written to a
    pipe, files opened and closed) and that can raise a Python exception.
    What the operating system answers (can the program be started, with
    which status does it exit, does a write to a pipe go through) is a
    parameter of every run. *)

From Stdlib Require Import List String Ascii ZArith Bool Arith Lia.
From Stdlib Require Import Init.Byte.
Import ListNotations.

Local Open Scope string_scope.
Local Open Scope list_scope.

(** ** Python's [str.split()] *)

(** [str.isspace] on the code points below 128: tab, line feed, vertical
    tab, form feed, carriage return, the four separators 0x1c-0x1f, and
    the space.  Python also takes some code points from 128 on as
    whitespace (U+0085, U+00A0, U+2003, ...); they are not modelled, so
    [split] below is [str.split()] on ASCII strings only.  The command
    lines of the source are ASCII literals made of printable characters
    and spaces. *)
Definition isspace (c : ascii) : bool :=
  let n := nat_of_ascii c in
  ((9 <=? n)%nat && (n <=? 13)%nat)
  || ((28 <=? n)%nat && (n <=? 31)%nat)
  || (n =? 32)%nat.

Definition flush_token (cur : string) : list string :=
  match cur with
  | EmptyString => []
  | _ => [cur]
  end.

(** [split_from s cur]: the tokens of [cur ++ s], where [cur] is the token
    being read and holds no whitespace. *)
Fixpoint split_from (s : string) (cur : string) : list string :=
  match s with
  | EmptyString => flush_token cur
  | String c s' =>
      if isspace c
      then flush_token cur ++ split_from s' EmptyString
      else split_from s' (cur ++ String c EmptyString)%string
  end.

(** [command.split()]: split on runs of whitespace, no empty token. *)
Definition split (command : string) : list string :=
  split_from command EmptyString.

(** ** The record of a run *)

(** Where a child's standard stream goes: the parent's own stream (the
    default of [subprocess]), a pipe to the parent ([subprocess.PIPE]), or
    an open file. *)
Inductive stream : Type :=
| Inherit
| PIPE
| ToFile (f : nat).

(** What [close] is called on. *)
Inductive handle : Type :=
| TempFile (f : nat)
| ChildStdin (p : nat).

Definition bytes := list byte.

Inductive Event : Type :=
| EvSpawn (p : nat) (argv : list string) (stdin stdout : stream)
    (* a child process [p] is started on the argument vector [argv] *)
| EvWait (p : nat) (status : Z)
    (* the parent blocks until [p] has exited, and reads its status *)
| EvOpen (f : nat)
    (* a temporary file is created and opened *)
| EvWrite (p : nat) (data : bytes)
    (* [data] is written to the standard input of [p] *)
| EvClose (h : handle).

Definition Trace := list Event.

(** The argument vectors of the processes started so far, oldest first. *)
Fixpoint spawned (t : Trace) : list (list string) :=
  match t with
  | [] => []
  | EvSpawn _ argv _ _ :: t' => argv :: spawned t'
  | _ :: t' => spawned t'
  end.

(** The chunks written to pipes so far, oldest first. *)
Fixpoint written (t : Trace) : list bytes :=
  match t with
  | [] => []
  | EvWrite _ data :: t' => data :: written t'
  | _ :: t' => written t'
  end.

(** The temporary files opened so far. *)
Fixpoint opened (t : Trace) : list nat :=
  match t with
  | [] => []
  | EvOpen f :: t' => f :: opened t'
  | _ :: t' => opened t'
  end.

(** ** The operating system *)

(** [os_exec h argv]: what happens when [argv] is started after the
    processes [h]: [None] when it cannot be started (Python raises
    [OSError]), [Some status] when it starts and, once it has run, exits
    with [status].
    [os_pipe h w data]: whether writing [data] to the pipe goes through,
    after the processes [h] were started and the chunks [w] written. *)
Record OS : Type := {
  os_exec : list (list string) -> list string -> option Z;
  os_pipe : list (list string) -> list bytes -> bytes -> bool
}.

(** ** Exceptions and the monad *)

Inductive exn : Type :=
| ValueError (msg : string)
| OSError.

Inductive result (A : Type) : Type :=
| Ok (a : A)
| Raise (e : exn).
Arguments Ok {A} a.
Arguments Raise {A} e.

(** A computation reads the operating system, extends the trace, and
    returns or raises.  What was done before an exception stays done. *)
Definition M (A : Type) : Type := OS -> Trace -> result A * Trace.

Definition ret {A : Type} (a : A) : M A := fun _ t => (Ok a, t).

Definition raise {A : Type} (e : exn) : M A := fun _ t => (Raise e, t).

Definition bind {A B : Type} (c : M A) (k : A -> M B) : M B :=
  fun os t =>
    match c os t with
    | (Ok a, t') => k a os t'
    | (Raise e, t') => (Raise e, t')
    end.

Declare Scope py_scope.
Delimit Scope py_scope with py.
Notation "x <- c ;; k" := (bind c (fun x => k))
  (at level 61, c at next level, right associativity) : py_scope.
Notation "c ;; k" := (bind c (fun _ => k))
  (at level 61, right associativity) : py_scope.

(** ** The library calls the source makes *)

(** [subprocess.call(argv)]: start [argv] with the parent's own streams,
    wait for it to exit, return its status. *)
Definition subprocess_call (argv : list string) : M Z :=
  fun os t =>
    match os_exec os (spawned t) argv with
    | None => (Raise OSError, t)
    | Some status =>
        let p := List.length (spawned t) in
        (Ok status, t ++ [EvSpawn p argv Inherit Inherit; EvWait p status])
    end.

(** [tempfile.TemporaryFile()].  The creation of the file is taken as
    given: a [TemporaryFile()] that itself raises, before any file is
    opened, is outside the model. *)
Definition tempfile_TemporaryFile : M nat :=
  fun _ t => let f := List.length (opened t) in (Ok f, t ++ [EvOpen f]).

(** [subprocess.Popen(argv, stdin=..., stdout=...)]: start [argv] and
    return at once with the child; nothing waits for it. *)
Definition subprocess_Popen (argv : list string) (stdin stdout : stream)
  : M nat :=
  fun os t =>
    match os_exec os (spawned t) argv with
    | None => (Raise OSError, t)
    | Some _ =>
        let p := List.length (spawned t) in
        (Ok p, t ++ [EvSpawn p argv stdin stdout])
    end.

(** [p.stdin.write(data)]. *)
Definition stdin_write (p : nat) (data : bytes) : M unit :=
  fun os t =>
    if os_pipe os (spawned t) (written t) data
    then (Ok tt, t ++ [EvWrite p data])
    else (Raise OSError, t).

(** [f.close()]. *)
Definition file_close (f : nat) : M unit :=
  fun _ t => (Ok tt, t ++ [EvClose (TempFile f)]).

(** ** class Make(Command) *)

Module Make.

Local Open Scope py_scope.

(** The one attribute of [self]. *)
Record t : Type := { agree_cpc : option string }.

(** [self.agree_cpc = None] *)
Definition initialize_options : t := {| agree_cpc := None |}.

Definition finalize_options (self : t) : M unit :=
  match agree_cpc self with
  | Some v =>
      if negb (v =? "yes")%string
      then raise (ValueError ("--agree-cpc should be yes. Given: " ++ v)%string)
      else ret tt
  | None => ret tt
  end.

Fixpoint _call (commands : list string) : M unit :=
  match commands with
  | [] => ret tt
  | command :: rest =>
      code <- subprocess_call (split command) ;;
      if negb (code =? 0)%Z
      then raise (ValueError ("Install failed at " ++ command)%string)
      else _call rest
  end.

Definition autoconf : M unit :=
  _call ["autoconf -o configure ac-tools/configure.ac"].

(** b"yes\n" and b"\n" *)
Definition yes_line : bytes := [x79; x65; x73; x0a].
Definition empty_line : bytes := [x0a].

Definition configure (self : t) : M unit :=
  match agree_cpc self with
  | None => _call ["./configure --prefix=$PWD/bin --with-cpc-modules"]
  | Some _ =>
      let command := "./configure --prefix=$PWD/bin --with-cpc-modules" in
      f <- tempfile_TemporaryFile ;;
      p <- subprocess_Popen (split command) PIPE (ToFile f) ;;
      stdin_write p yes_line ;;
      stdin_write p empty_line ;;
      file_close f
  end.

Definition make : M unit :=
  _call ["make"; "make check"; "make install"].

Definition clean : M unit :=
  code <- subprocess_call (split "make clean") ;;
  ret tt.

Definition run (self : t) : M unit :=
  autoconf ;;
  configure self ;;
  clean ;;
  make.

(** How setuptools runs the command: the object is created with
    [initialize_options], the value of [--agree-cpc] (when the option is
    given) is stored in the attribute, [finalize_options] is called, and
    then [run]. *)
Definition run_command (option : option string) : M unit :=
  let self :=
    match option with
    | Some v => {| agree_cpc := Some v |}
    | None => initialize_options
    end in
  finalize_options self ;;
  run self.

End Make.

(** ** Concrete operating systems, for the examples *)

(** Every program starts and exits with status 0; every write goes
    through. *)
Definition os_fine : OS :=
  {| os_exec := fun _ _ => Some 0%Z; os_pipe := fun _ _ _ => true |}.

(** Every program starts and exits with [status]. *)
Definition os_all (status : Z) : OS :=
  {| os_exec := fun _ _ => Some status; os_pipe := fun _ _ _ => true |}.

(** Every program exits with status 0, but for [argv], which exits with
    [status]. *)
Definition os_one_fails (argv : list string) (status : Z) : OS :=
  {| os_exec := fun _ a =>
       if list_eq_dec string_dec a argv then Some status else Some 0%Z;
     os_pipe := fun _ _ _ => true |}.

(** Every program but [argv] starts and exits with status 0; [argv]
    cannot be started. *)
Definition os_cannot_start (argv : list string) : OS :=
  {| os_exec := fun _ a =>
       if list_eq_dec string_dec a argv then None else Some 0%Z;
     os_pipe := fun _ _ _ => true |}.

(** As [os_fine], but a write to a pipe fails once [n] chunks are
    written. *)
Definition os_pipe_breaks (n : nat) : OS :=
  {| os_exec := fun _ _ => Some 0%Z;
     os_pipe := fun _ w _ => (List.length w <? n)%nat |}.

(** ** Vocabulary of the specification *)

(** The six command lines, in the order of [run]. *)
Definition command_lines : list string :=
  ["autoconf -o configure ac-tools/configure.ac";
   "./configure --prefix=$PWD/bin --with-cpc-modules";
   "make clean";
   "make";
   "make check";
   "make install"].

(** Every command of [commands], started in turn after the processes [h],
    can be started and exits with status 0. *)
Fixpoint all_succeed (os : OS) (h : list (list string))
    (commands : list string) : Prop :=
  match commands with
  | [] => True
  | command :: rest =>
      os_exec os h (split command) = Some 0%Z
      /\ all_succeed os (h ++ [split command]) rest
  end.

(** What running [commands] one after the other leaves in the trace when
    each exits with status 0: each process is started, then waited for,
    before the next one; [p] numbers the first. *)
Fixpoint call_events (p : nat) (commands : list string) : Trace :=
  match commands with
  | [] => []
  | command :: rest =>
      EvSpawn p (split command) Inherit Inherit :: EvWait p 0
        :: call_events (S p) rest
  end.

(** The operating system [os], but for [make clean], which exits with
    status 0 wherever it can be started. *)
Definition with_clean_ok (os : OS) : OS :=
  {| os_exec := fun h argv =>
       if list_eq_dec string_dec argv ["make"; "clean"]
       then match os_exec os h argv with
            | Some _ => Some 0%Z
            | None => None
            end
       else os_exec os h argv;
     os_pipe := os_pipe os |}.

(** Some event of [t] closes the standard input of the child [p]. *)
Definition closes_stdin (p : nat) (t : Trace) : bool :=
  existsb
    (fun e =>
       match e with
       | EvClose (ChildStdin q) => (q =? p)%nat
       | _ => false
       end)
    t.

(** The input protocol of the scripted configure as the specification
    words it: the two lines, and nothing else, are written to the child,
    whose standard input is closed after them. *)
Definition scripted_input_protocol (t : Trace) : Prop :=
  exists p before after,
    t = before ++ EvWrite p Make.yes_line :: EvWrite p Make.empty_line :: after
    /\ written t = [Make.yes_line; Make.empty_line]
    /\ closes_stdin p after = true.

(** The exception of a failed command gives its exit status: [status_of]
    reads, in what [_call] raises, the status the command exited with. *)
Definition error_gives_status (status_of : exn -> Z) : Prop :=
  forall os command status,
    os_exec os [] (split command) = Some status ->
    status <> 0%Z ->
    exists e,
      fst (Make._call [command] os []) = Raise e /\ status_of e = status.

(** [check_seq running t] goes through [t], [running] being the processes
    started and not waited for yet; it gives [None] as soon as a process
    is started while another one is in [running]. *)
Fixpoint check_seq (running : list nat) (t : Trace) : option (list nat) :=
  match t with
  | [] => Some running
  | EvSpawn p _ _ _ :: t' =>
      match running with
      | [] => check_seq [p] t'
      | _ :: _ => None
      end
  | EvWait p _ :: t' => check_seq (remove Nat.eq_dec p running) t'
  | _ :: t' => check_seq running t'
  end.

(** Every process of [t] is waited for before the next one is started. *)
Definition sequential (t : Trace) : bool :=
  match check_seq [] t with
  | Some _ => true
  | None => false
  end.

(** The temporary files that [t] closes. *)
Fixpoint closed_files (t : Trace) : list nat :=
  match t with
  | [] => []
  | EvClose (TempFile f) :: t' => f :: closed_files t'
  | _ :: t' => closed_files t'
  end.

(** The temporary files that [t] opens and does not close. *)
Definition still_open (t : Trace) : list nat :=
  filter (fun f => negb (existsb (Nat.eqb f) (closed_files t))) (opened t).

(** [c] only starts processes on the tokens of the six command lines. *)
Definition starts_only_commands {A : Type} (c : M A) : Prop :=
  forall os t,
    exists l,
      spawned (snd (c os t)) = spawned t ++ l
      /\ incl l (map split command_lines).

(** A token: not empty, and without whitespace. *)
Definition is_token (tok : string) : Prop :=
  tok <> EmptyString
  /\ forall ch, In ch (list_ascii_of_string tok) -> isspace ch = false.

(** [c] starts the processes of [segment] in order, and returns normally
    only when it has started them all. *)
Definition runs_prefix_of (segment : list (list string)) (c : M unit)
  : Prop :=
  forall os t,
    exists started rest,
      segment = started ++ rest
      /\ spawned (snd (c os t)) = spawned t ++ started
      /\ (fst (c os t) = Ok tt -> rest = []).

(** The events of [subprocess.call]: a child that has the parent's own
    streams is started, or a child is waited for. *)
Definition is_call_event (e : Event) : bool :=
  match e with
  | EvSpawn _ _ Inherit Inherit => true
  | EvWait _ _ => true
  | _ => false
  end.

(** [c] adds nothing to the trace but events of [subprocess.call]. *)
Definition only_calls {A : Type} (c : M A) : Prop :=
  forall os t,
    exists u,
      snd (c os t) = t ++ u /\ forallb is_call_event u = true.

(** [configure] with the option set, from the [Popen] call on (the
    statements behind [f = tempfile.TemporaryFile()]), [f] being the
    scratch file. *)
Definition configure_child (f : nat) : M unit :=
  (p <- subprocess_Popen
          (split "./configure --prefix=$PWD/bin --with-cpc-modules")
          PIPE (ToFile f) ;;
   stdin_write p Make.yes_line ;;
   stdin_write p Make.empty_line ;;
   file_close f)%py.

(** The characters on which [split] is [str.split()] whatever the
    Python: ASCII, and none of the separators 0x1c-0x1f, which are
    whitespace for the [str] of Python 3 and not for that of Python 2. *)
Definition plain (ch : ascii) : bool :=
  let n := nat_of_ascii ch in
  (n <? 128)%nat && negb ((28 <=? n)%nat && (n <=? 31)%nat).

Definition plain_text (s : string) : Prop :=
  forall ch, In ch (list_ascii_of_string s) -> plain ch = true.

(** A word: not empty, made of plain characters that are not
    whitespace. *)
Definition is_word (w : string) : Prop :=
  w <> EmptyString
  /\ forall ch, In ch (list_ascii_of_string w) ->
       isspace ch = false /\ plain ch = true.

(** A run of plain whitespace (tab, line feed, vertical tab, form feed,
    carriage return, space), possibly empty. *)
Definition is_blank (b : string) : Prop :=
  forall ch, In ch (list_ascii_of_string b) ->
    isspace ch = true /\ plain ch = true.

(** The text made of words, each followed by its run of whitespace. *)
Fixpoint words_text (pairs : list (string * string)) : string :=
  match pairs with
  | [] => EmptyString
  | (w, b) :: rest => (w ++ b ++ words_text rest)%string
  end.

(** Each pair is a word and the whitespace behind it, and only the last
    word may have none behind it. *)
Fixpoint separated (pairs : list (string * string)) : Prop :=
  match pairs with
  | [] => True
  | (w, b) :: rest =>
      is_word w /\ is_blank b /\ (rest <> [] -> b <> EmptyString)
      /\ separated rest
  end.

(** * Properties *)

Example split_configure :
  split "./configure --prefix=$PWD/bin --with-cpc-modules"
  = ["./configure"; "--prefix=$PWD/bin"; "--with-cpc-modules"].
Proof. reflexivity. Qed.

Example split_spaces : split "  make   check " = ["make"; "check"].
Proof. reflexivity. Qed.

Example run_unset_fine :
  Make.run_command None os_fine []
  = (Ok tt,
     [EvSpawn 0 ["autoconf"; "-o"; "configure"; "ac-tools/configure.ac"]
        Inherit Inherit; EvWait 0 0;
      EvSpawn 1 ["./configure"; "--prefix=$PWD/bin"; "--with-cpc-modules"]
        Inherit Inherit; EvWait 1 0;
      EvSpawn 2 ["make"; "clean"] Inherit Inherit; EvWait 2 0;
      EvSpawn 3 ["make"] Inherit Inherit; EvWait 3 0;
      EvSpawn 4 ["make"; "check"] Inherit Inherit; EvWait 4 0;
      EvSpawn 5 ["make"; "install"] Inherit Inherit; EvWait 5 0]).
Proof. reflexivity. Qed.

Example run_yes_fine :
  Make.run_command (Some "yes") os_fine []
  = (Ok tt,
     [EvSpawn 0 ["autoconf"; "-o"; "configure"; "ac-tools/configure.ac"]
        Inherit Inherit; EvWait 0 0;
      EvOpen 0;
      EvSpawn 1 ["./configure"; "--prefix=$PWD/bin"; "--with-cpc-modules"]
        PIPE (ToFile 0);
      EvWrite 1 Make.yes_line; EvWrite 1 Make.empty_line;
      EvClose (TempFile 0);
      EvSpawn 2 ["make"; "clean"] Inherit Inherit; EvWait 2 0;
      EvSpawn 3 ["make"] Inherit Inherit; EvWait 3 0;
      EvSpawn 4 ["make"; "check"] Inherit Inherit; EvWait 4 0;
      EvSpawn 5 ["make"; "install"] Inherit Inherit; EvWait 5 0]).
Proof. reflexivity. Qed.

(** ** Traces *)

Lemma spawned_app (t u : Trace) : spawned (t ++ u) = spawned t ++ spawned u.
Proof.
  induction t as [|e t IH]; simpl; [reflexivity|].
  destruct e; simpl; rewrite IH; reflexivity.
Qed.

Lemma written_app (t u : Trace) : written (t ++ u) = written t ++ written u.
Proof.
  induction t as [|e t IH]; simpl; [reflexivity|].
  destruct e; simpl; rewrite IH; reflexivity.
Qed.

Lemma opened_app (t u : Trace) : opened (t ++ u) = opened t ++ opened u.
Proof.
  induction t as [|e t IH]; simpl; [reflexivity|].
  destruct e; simpl; rewrite IH; reflexivity.
Qed.

(** ** One step of [subprocess.call] *)

Lemma subprocess_call_started (argv : list string) (status : Z) os t :
  os_exec os (spawned t) argv = Some status ->
  subprocess_call argv os t
  = (Ok status,
     t ++ [EvSpawn (List.length (spawned t)) argv Inherit Inherit;
           EvWait (List.length (spawned t)) status]).
Proof. intros H. unfold subprocess_call. rewrite H. reflexivity. Qed.

Lemma subprocess_call_refused (argv : list string) os t :
  os_exec os (spawned t) argv = None ->
  subprocess_call argv os t = (Raise OSError, t).
Proof. intros H. unfold subprocess_call. rewrite H. reflexivity. Qed.

Lemma subprocess_Popen_started argv i o (status : Z) os t :
  os_exec os (spawned t) argv = Some status ->
  subprocess_Popen argv i o os t
  = (Ok (List.length (spawned t)),
     t ++ [EvSpawn (List.length (spawned t)) argv i o]).
Proof. intros H. unfold subprocess_Popen. rewrite H. reflexivity. Qed.

Lemma stdin_write_through p data os t :
  os_pipe os (spawned t) (written t) data = true ->
  stdin_write p data os t = (Ok tt, t ++ [EvWrite p data]).
Proof. intros H. unfold stdin_write. rewrite H. reflexivity. Qed.

Lemma stdin_write_broken p data os t :
  os_pipe os (spawned t) (written t) data = false ->
  stdin_write p data os t = (Raise OSError, t).
Proof. intros H. unfold stdin_write. rewrite H. reflexivity. Qed.

(** The three ways one round of the loop of [_call] can go. *)
Lemma _call_cons_zero command rest os t :
  os_exec os (spawned t) (split command) = Some 0%Z ->
  Make._call (command :: rest) os t
  = Make._call rest os
      (t ++ [EvSpawn (List.length (spawned t)) (split command) Inherit Inherit;
             EvWait (List.length (spawned t)) 0]).
Proof.
  intros H. simpl. unfold bind.
  rewrite (subprocess_call_started _ _ _ _ H). reflexivity.
Qed.

Lemma _call_cons_nonzero command rest status os t :
  os_exec os (spawned t) (split command) = Some status ->
  status <> 0%Z ->
  Make._call (command :: rest) os t
  = (Raise (ValueError ("Install failed at " ++ command)%string),
     t ++ [EvSpawn (List.length (spawned t)) (split command) Inherit Inherit;
           EvWait (List.length (spawned t)) status]).
Proof.
  intros H Hs. simpl. unfold bind.
  rewrite (subprocess_call_started _ _ _ _ H).
  destruct (Z.eqb_spec status 0) as [E|_]; [contradiction|reflexivity].
Qed.

Lemma _call_cons_refused command rest os t :
  os_exec os (spawned t) (split command) = None ->
  Make._call (command :: rest) os t = (Raise OSError, t).
Proof.
  intros H. simpl. unfold bind.
  rewrite (subprocess_call_refused _ _ _ H). reflexivity.
Qed.

(** ** [_call] on a list of commands *)

Lemma _call_all_succeed os commands : forall t,
  all_succeed os (spawned t) commands ->
  Make._call commands os t
  = (Ok tt, t ++ call_events (List.length (spawned t)) commands).
Proof.
  induction commands as [|command rest IH]; intros t H.
  - simpl. unfold ret. rewrite app_nil_r. reflexivity.
  - destruct H as [H0 Hrest].
    rewrite (_call_cons_zero _ _ _ _ H0).
    rewrite IH.
    + rewrite spawned_app, length_app, <- app_assoc. simpl.
      rewrite Nat.add_1_r. reflexivity.
    + rewrite spawned_app. simpl. exact Hrest.
Qed.

Lemma spawned_call_events p commands :
  spawned (call_events p commands) = map split commands.
Proof.
  revert p. induction commands as [|command rest IH]; intros p; simpl.
  - reflexivity.
  - rewrite IH. reflexivity.
Qed.

(** C3. [_call] runs the commands of its list one at a time and in the
    order of the list, each as a process of its own that is waited for
    before the next is started; when all exit with status 0 it returns.
    At the first command whose exit status is not 0 it raises a
    [ValueError] whose message names that command, and none of the
    commands behind it is started. *)
Theorem _call_in_order_until_first_failure os t pre :
  all_succeed os (spawned t) pre ->
  Make._call pre os t
  = (Ok tt, t ++ call_events (List.length (spawned t)) pre)
  /\ forall command post status,
      os_exec os (spawned t ++ map split pre) (split command) = Some status ->
      status <> 0%Z ->
      Make._call (pre ++ command :: post) os t
      = (Raise (ValueError ("Install failed at " ++ command)%string),
         t ++ call_events (List.length (spawned t)) pre
           ++ [EvSpawn (List.length (spawned t) + List.length pre)
                 (split command) Inherit Inherit;
               EvWait (List.length (spawned t) + List.length pre) status]).
Proof.
  intros Hpre. split; [apply _call_all_succeed; exact Hpre|].
  revert t Hpre. induction pre as [|c pre IH]; intros t Hpre command post status Hc Hs.
  - simpl in *. rewrite app_nil_r in Hc. rewrite Nat.add_0_r.
    apply _call_cons_nonzero; assumption.
  - destruct Hpre as [H0 Hpre]. simpl app.
    rewrite (_call_cons_zero _ _ _ _ H0).
    set (t1 := t ++ [EvSpawn (List.length (spawned t)) (split c) Inherit Inherit;
                     EvWait (List.length (spawned t)) 0]).
    assert (Hsp : spawned t1 = spawned t ++ [split c]).
    { unfold t1. rewrite spawned_app. reflexivity. }
    rewrite (IH t1) with (status := status).
    + rewrite Hsp, length_app. unfold t1. simpl.
      rewrite <- app_assoc. simpl.
      replace (List.length (spawned t) + 1 + List.length pre)
        with (List.length (spawned t) + S (List.length pre)) by lia.
      rewrite Nat.add_1_r. reflexivity.
    + rewrite Hsp. exact Hpre.
    + rewrite Hsp, <- app_assoc. exact Hc.
    + exact Hs.
Qed.

Lemma _call_in_order_until_first_failure_witness :
  Make._call ["make"] (os_one_fails ["make"; "check"] 2) []
  = (Ok tt, [EvSpawn 0 ["make"] Inherit Inherit; EvWait 0 0])
  /\ Make._call ["make"; "make check"; "make install"]
       (os_one_fails ["make"; "check"] 2) []
     = (Raise (ValueError "Install failed at make check"),
        [EvSpawn 0 ["make"] Inherit Inherit; EvWait 0 0;
         EvSpawn 1 ["make"; "check"] Inherit Inherit; EvWait 1 2]).
Proof.
  destruct (_call_in_order_until_first_failure
              (os_one_fails ["make"; "check"] 2) [] ["make"]) as [H1 H2].
  - simpl. split; [reflexivity|exact I].
  - split; [exact H1|].
    apply (H2 "make check" ["make install"] 2%Z); [reflexivity|discriminate].
Defined.

(** ** The run with the option left unset *)

(** C1. With [--agree-cpc] not given and every external command exiting
    with status 0, the run returns normally and has started exactly six
    processes, in this order: autoconf, configure, make clean, make,
    make check, make install. *)
Theorem run_unset_six_commands os :
  (forall h argv, os_exec os h argv = Some 0%Z) ->
  fst (Make.run_command None os []) = Ok tt
  /\ spawned (snd (Make.run_command None os []))
     = map split
         ["autoconf -o configure ac-tools/configure.ac";
          "./configure --prefix=$PWD/bin --with-cpc-modules";
          "make clean";
          "make";
          "make check";
          "make install"].
Proof.
  intros H.
  assert (E : Make.run_command None os [] = (Ok tt, call_events 0 command_lines)).
  { unfold Make.run_command, Make.run, Make.autoconf, Make.configure,
      Make.clean, Make.make, Make.finalize_options, Make.initialize_options.
    simpl. unfold bind, subprocess_call, ret.
    repeat (rewrite H; simpl). reflexivity. }
  rewrite E. split; reflexivity.
Qed.

Lemma run_unset_six_commands_witness :
  fst (Make.run_command None os_fine []) = Ok tt
  /\ spawned (snd (Make.run_command None os_fine []))
     = [["autoconf"; "-o"; "configure"; "ac-tools/configure.ac"];
        ["./configure"; "--prefix=$PWD/bin"; "--with-cpc-modules"];
        ["make"; "clean"];
        ["make"];
        ["make"; "check"];
        ["make"; "install"]].
Proof.
  apply (run_unset_six_commands os_fine). intros h argv. reflexivity.
Defined.

(** ** Validation of the option *)

(** C2. Any value of [--agree-cpc] other than the string [yes] makes
    [finalize_options] raise a [ValueError] whose message ends with the
    value that was given; the trace is left as it was, and a run of the
    command stops there with no process started. *)
Theorem finalize_options_rejects (v : string) os t :
  v <> "yes" ->
  Make.finalize_options {| Make.agree_cpc := Some v |} os t
  = (Raise (ValueError ("--agree-cpc should be yes. Given: " ++ v)%string), t)
  /\ Make.run_command (Some v) os []
     = (Raise (ValueError ("--agree-cpc should be yes. Given: " ++ v)%string),
        [])
  /\ spawned (snd (Make.run_command (Some v) os [])) = [].
Proof.
  intros Hv.
  assert (E : forall u,
    Make.finalize_options {| Make.agree_cpc := Some v |} os u
    = (Raise (ValueError ("--agree-cpc should be yes. Given: " ++ v)%string), u)).
  { intros u. unfold Make.finalize_options. simpl.
    destruct (String.eqb_spec v "yes") as [Heq|_]; [contradiction|reflexivity]. }
  assert (R : Make.run_command (Some v) os []
    = (Raise (ValueError ("--agree-cpc should be yes. Given: " ++ v)%string), [])).
  { unfold Make.run_command, bind. rewrite E. reflexivity. }
  split; [apply E|]. split; [exact R|]. rewrite R. reflexivity.
Qed.

Lemma finalize_options_rejects_witness :
  Make.finalize_options {| Make.agree_cpc := Some "no" |} os_fine []
  = (Raise (ValueError "--agree-cpc should be yes. Given: no"), [])
  /\ Make.run_command (Some "no") os_fine []
     = (Raise (ValueError "--agree-cpc should be yes. Given: no"), [])
  /\ spawned (snd (Make.run_command (Some "no") os_fine [])) = [].
Proof.
  apply (finalize_options_rejects "no" os_fine []). discriminate.
Defined.

(** ** The clean phase *)

Lemma exec_with_clean_ok_other os h argv :
  argv <> ["make"; "clean"] ->
  os_exec (with_clean_ok os) h argv = os_exec os h argv.
Proof.
  intros Hne. simpl.
  destruct (list_eq_dec string_dec argv ["make"; "clean"]) as [E|_];
    [contradiction|reflexivity].
Qed.

Lemma subprocess_call_with_clean_ok os argv t :
  argv <> ["make"; "clean"] ->
  subprocess_call argv (with_clean_ok os) t = subprocess_call argv os t.
Proof.
  intros Hne. unfold subprocess_call.
  rewrite (exec_with_clean_ok_other os _ _ Hne). reflexivity.
Qed.

Lemma subprocess_Popen_with_clean_ok os argv i o t :
  argv <> ["make"; "clean"] ->
  subprocess_Popen argv i o (with_clean_ok os) t = subprocess_Popen argv i o os t.
Proof.
  intros Hne. unfold subprocess_Popen.
  rewrite (exec_with_clean_ok_other os _ _ Hne). reflexivity.
Qed.

(** Commands other than [make clean] go the same way, in a trace that
    holds the same processes, whatever [make clean] exits with. *)
Lemma _call_with_clean_ok os commands :
  Forall (fun c => split c <> ["make"; "clean"]) commands ->
  forall t t', spawned t = spawned t' ->
  fst (Make._call commands os t) = fst (Make._call commands (with_clean_ok os) t')
  /\ spawned (snd (Make._call commands os t))
     = spawned (snd (Make._call commands (with_clean_ok os) t')).
Proof.
  induction 1 as [|c rest Hc _ IH]; intros t t' Ht.
  - simpl. split; [reflexivity|exact Ht].
  - simpl. unfold bind.
    rewrite (subprocess_call_with_clean_ok os _ t' Hc).
    unfold subprocess_call. rewrite <- Ht.
    destruct (os_exec os (spawned t) (split c)) as [status|]; simpl.
    + destruct (Z.eqb_spec status 0) as [E|E]; simpl.
      * apply IH. rewrite !spawned_app, Ht. reflexivity.
      * split; [reflexivity|]. rewrite !spawned_app, Ht. reflexivity.
    + split; [reflexivity|exact Ht].
Qed.

Lemma prefix_with_clean_ok os self t :
  bind Make.autoconf (fun _ => Make.configure self) (with_clean_ok os) t
  = bind Make.autoconf (fun _ => Make.configure self) os t.
Proof.
  unfold Make.autoconf, Make.configure, Make._call, bind.
  rewrite subprocess_call_with_clean_ok by (vm_compute; discriminate).
  destruct (subprocess_call _ os t) as [[status|e] t1]; [|reflexivity].
  destruct (negb (status =? 0)%Z); [reflexivity|].
  unfold ret. destruct (Make.agree_cpc self) as [v|].
  - unfold tempfile_TemporaryFile.
    rewrite subprocess_Popen_with_clean_ok by (vm_compute; discriminate).
    destruct (subprocess_Popen _ _ _ os _) as [[p|e] t2]; [|reflexivity].
    unfold stdin_write. simpl os_pipe. reflexivity.
  - rewrite subprocess_call_with_clean_ok by (vm_compute; discriminate).
    destruct (subprocess_call _ os t1) as [[status'|e] t2]; [|reflexivity].
    destruct (negb (status' =? 0)%Z); reflexivity.
Qed.

Lemma run_as_phases self os t :
  Make.run self os t
  = match bind Make.autoconf (fun _ => Make.configure self) os t with
    | (Ok _, t1) => bind Make.clean (fun _ => Make.make) os t1
    | (Raise e, t1) => (Raise e, t1)
    end.
Proof.
  unfold Make.run, bind.
  destruct (Make.autoconf os t) as [[[]|e] t0]; [|reflexivity].
  destruct (Make.configure self os t0) as [[[]|e] t1]; reflexivity.
Qed.

Lemma clean_started os t status :
  os_exec os (spawned t) ["make"; "clean"] = Some status ->
  Make.clean os t
  = (Ok tt,
     t ++ [EvSpawn (List.length (spawned t)) ["make"; "clean"] Inherit Inherit;
           EvWait (List.length (spawned t)) status]).
Proof.
  intros H. unfold Make.clean, bind.
  change (split "make clean") with ["make"; "clean"].
  rewrite (subprocess_call_started _ _ _ _ H). reflexivity.
Qed.

(** C4. Whatever status [make clean] exits with, [clean] returns normally
    and [run] goes on with [make] in the trace that [clean] leaves; the
    result of [run], and the processes it starts, are those of the run in
    which [make clean] exits with status 0. *)
Theorem clean_status_is_ignored self os t :
  fst (Make.run self os t) = fst (Make.run self (with_clean_ok os) t)
  /\ spawned (snd (Make.run self os t))
     = spawned (snd (Make.run self (with_clean_ok os) t))
  /\ forall t1 status,
      bind Make.autoconf (fun _ => Make.configure self) os t = (Ok tt, t1) ->
      os_exec os (spawned t1) ["make"; "clean"] = Some status ->
      Make.clean os t1
      = (Ok tt,
         t1 ++ [EvSpawn (List.length (spawned t1)) ["make"; "clean"]
                  Inherit Inherit;
                EvWait (List.length (spawned t1)) status])
      /\ Make.run self os t
         = Make.make os
             (t1 ++ [EvSpawn (List.length (spawned t1)) ["make"; "clean"]
                       Inherit Inherit;
                     EvWait (List.length (spawned t1)) status]).
Proof.
  assert (Hsame :
    fst (Make.run self os t) = fst (Make.run self (with_clean_ok os) t)
    /\ spawned (snd (Make.run self os t))
       = spawned (snd (Make.run self (with_clean_ok os) t))).
  { rewrite !run_as_phases, prefix_with_clean_ok.
    destruct (bind Make.autoconf _ os t) as [[[]|e] t1];
      [|split; reflexivity].
    unfold bind at 1 3. unfold Make.clean, bind, subprocess_call.
    change (split "make clean") with ["make"; "clean"].
    simpl os_exec.
    destruct (os_exec os (spawned t1) ["make"; "clean"]) as [status|];
      simpl; [|split; reflexivity].
    unfold ret. apply _call_with_clean_ok.
    - repeat constructor; vm_compute; discriminate.
    - rewrite !spawned_app. reflexivity. }
  destruct Hsame as [Hres Hsp].
  split; [exact Hres|]. split; [exact Hsp|].
  intros t1 status Hpre Hclean.
  split; [apply clean_started; exact Hclean|].
  rewrite run_as_phases, Hpre. unfold bind.
  rewrite (clean_started _ _ _ Hclean). reflexivity.
Qed.

Lemma clean_status_is_ignored_witness :
  let os := os_one_fails ["make"; "clean"] 2 in
  let t1 :=
    [EvSpawn 0 ["autoconf"; "-o"; "configure"; "ac-tools/configure.ac"]
       Inherit Inherit; EvWait 0 0;
     EvSpawn 1 ["./configure"; "--prefix=$PWD/bin"; "--with-cpc-modules"]
       Inherit Inherit; EvWait 1 0] in
  let t2 :=
    t1 ++ [EvSpawn 2 ["make"; "clean"] Inherit Inherit; EvWait 2 2] in
  Make.clean os t1 = (Ok tt, t2)
  /\ Make.run {| Make.agree_cpc := None |} os [] = Make.make os t2.
Proof.
  intros os t1 t2.
  apply (proj2 (proj2 (clean_status_is_ignored
                         {| Make.agree_cpc := None |} os [])) t1 2%Z);
    reflexivity.
Defined.

Example run_clean_fails :
  Make.run_command None (os_one_fails ["make"; "clean"] 2) []
  = (Ok tt,
     [EvSpawn 0 ["autoconf"; "-o"; "configure"; "ac-tools/configure.ac"]
        Inherit Inherit; EvWait 0 0;
      EvSpawn 1 ["./configure"; "--prefix=$PWD/bin"; "--with-cpc-modules"]
        Inherit Inherit; EvWait 1 0;
      EvSpawn 2 ["make"; "clean"] Inherit Inherit; EvWait 2 2;
      EvSpawn 3 ["make"] Inherit Inherit; EvWait 3 0;
      EvSpawn 4 ["make"; "check"] Inherit Inherit; EvWait 4 0;
      EvSpawn 5 ["make"; "install"] Inherit Inherit; EvWait 5 0]).
Proof. reflexivity. Qed.

(** ** What [_call] starts *)

(** The processes [_call] starts are the first commands of its list, each
    on the tokens of its command line. *)
Lemma _call_spawned os commands : forall t,
  exists n,
    spawned (snd (Make._call commands os t))
    = spawned t ++ map split (firstn n commands).
Proof.
  induction commands as [|c rest IH]; intros t.
  - exists 0. simpl. rewrite app_nil_r. reflexivity.
  - simpl. unfold bind, subprocess_call.
    destruct (os_exec os (spawned t) (split c)) as [status|].
    + destruct (negb (status =? 0)%Z).
      * exists 1. simpl. rewrite spawned_app. reflexivity.
      * destruct (IH (t ++ [EvSpawn (List.length (spawned t)) (split c)
                              Inherit Inherit;
                            EvWait (List.length (spawned t)) status]))
          as [n Hn].
        exists (S n). rewrite Hn, spawned_app, <- app_assoc. reflexivity.
    + exists 0. simpl. rewrite app_nil_r. reflexivity.
Qed.

(** ** The scripted configure *)

(** C5. With [--agree-cpc=yes], once autoconf has exited with status 0,
    the configure child is started and both lines are written to it,
    [configure] returns normally whatever status the child exits with:
    the status is never read.  The run goes on with [clean] and then
    [make]. *)
Theorem scripted_configure_status_unchecked os (status : Z) :
  let a := ["autoconf"; "-o"; "configure"; "ac-tools/configure.ac"] in
  let c := ["./configure"; "--prefix=$PWD/bin"; "--with-cpc-modules"] in
  let t0 := [EvSpawn 0 a Inherit Inherit; EvWait 0 0] in
  let t1 :=
    t0 ++ [EvOpen 0; EvSpawn 1 c PIPE (ToFile 0);
           EvWrite 1 Make.yes_line; EvWrite 1 Make.empty_line;
           EvClose (TempFile 0)] in
  os_exec os [] a = Some 0%Z ->
  os_exec os [a] c = Some status ->
  os_pipe os [a; c] [] Make.yes_line = true ->
  os_pipe os [a; c] [Make.yes_line] Make.empty_line = true ->
  Make.configure {| Make.agree_cpc := Some "yes" |} os t0 = (Ok tt, t1)
  /\ Make.run_command (Some "yes") os []
     = bind Make.clean (fun _ => Make.make) os t1
  /\ forall s1 s2,
      os_exec os [a; c] ["make"; "clean"] = Some s1 ->
      os_exec os [a; c; ["make"; "clean"]] ["make"] = Some s2 ->
      firstn 4 (spawned (snd (Make.run_command (Some "yes") os [])))
      = [a; c; ["make"; "clean"]; ["make"]].
Proof.
  intros a c t0 t1 Ha Hc Hw1 Hw2.
  assert (Hconf :
    Make.configure {| Make.agree_cpc := Some "yes" |} os t0 = (Ok tt, t1)).
  { unfold Make.configure, bind, tempfile_TemporaryFile, subprocess_Popen,
      stdin_write, file_close.
    change (split "./configure --prefix=$PWD/bin --with-cpc-modules") with c.
    simpl. fold a c. rewrite Hc. simpl. fold a c. rewrite Hw1. simpl.
    fold a c. rewrite Hw2. reflexivity. }
  assert (Hrun : Make.run_command (Some "yes") os []
                 = bind Make.clean (fun _ => Make.make) os t1).
  { unfold Make.run_command, Make.finalize_options. simpl.
    unfold bind at 1. unfold ret at 1.
    rewrite run_as_phases.
    assert (Hpre : bind Make.autoconf
                     (fun _ => Make.configure {| Make.agree_cpc := Some "yes" |})
                     os [] = (Ok tt, t1)).
    { unfold bind, Make.autoconf.
      rewrite _call_cons_zero by exact Ha. simpl.
      unfold ret. exact Hconf. }
    rewrite Hpre. reflexivity. }
  split; [exact Hconf|]. split; [exact Hrun|].
  intros s1 s2 H1 H2. rewrite Hrun. unfold bind.
  rewrite (clean_started os t1 s1) by exact H1.
  unfold Make.make.
  destruct (Z.eq_dec s2 0) as [E|E].
  - subst s2. rewrite _call_cons_zero by exact H2.
    match goal with
    | |- context [Make._call ?l os ?t] =>
        destruct (_call_spawned os l t) as [n Hn]
    end.
    rewrite Hn. reflexivity.
  - rewrite (_call_cons_nonzero _ _ s2) by assumption. reflexivity.
Qed.

Lemma scripted_configure_status_unchecked_witness :
  let os := os_one_fails ["./configure"; "--prefix=$PWD/bin"; "--with-cpc-modules"] 1 in
  Make.configure {| Make.agree_cpc := Some "yes" |} os
    [EvSpawn 0 ["autoconf"; "-o"; "configure"; "ac-tools/configure.ac"]
       Inherit Inherit; EvWait 0 0]
  = (Ok tt,
     [EvSpawn 0 ["autoconf"; "-o"; "configure"; "ac-tools/configure.ac"]
        Inherit Inherit; EvWait 0 0;
      EvOpen 0;
      EvSpawn 1 ["./configure"; "--prefix=$PWD/bin"; "--with-cpc-modules"]
        PIPE (ToFile 0);
      EvWrite 1 Make.yes_line; EvWrite 1 Make.empty_line;
      EvClose (TempFile 0)])
  /\ firstn 4 (spawned (snd (Make.run_command (Some "yes") os [])))
     = [["autoconf"; "-o"; "configure"; "ac-tools/configure.ac"];
        ["./configure"; "--prefix=$PWD/bin"; "--with-cpc-modules"];
        ["make"; "clean"];
        ["make"]].
Proof.
  intros os.
  destruct (scripted_configure_status_unchecked os 1%Z) as [H1 [_ H3]];
    try reflexivity.
  split; [exact H1|].
  apply (H3 0%Z 0%Z); reflexivity.
Defined.

(** The scripted configure when the child starts and both writes go
    through. *)
Lemma configure_scripted_events (v : string) (status : Z) os t :
  let c := ["./configure"; "--prefix=$PWD/bin"; "--with-cpc-modules"] in
  let f := List.length (opened t) in
  let p := List.length (spawned t) in
  os_exec os (spawned t) c = Some status ->
  os_pipe os (spawned t ++ [c]) (written t) Make.yes_line = true ->
  os_pipe os (spawned t ++ [c]) (written t ++ [Make.yes_line])
    Make.empty_line = true ->
  Make.configure {| Make.agree_cpc := Some v |} os t
  = (Ok tt,
     t ++ [EvOpen f; EvSpawn p c PIPE (ToFile f);
           EvWrite p Make.yes_line; EvWrite p Make.empty_line;
           EvClose (TempFile f)]).
Proof.
  intros c f p Hc Hw1 Hw2.
  unfold Make.configure, bind, tempfile_TemporaryFile, file_close. simpl.
  change (split "./configure --prefix=$PWD/bin --with-cpc-modules") with c.
  fold f.
  assert (S1 : spawned (t ++ [EvOpen f]) = spawned t).
  { rewrite spawned_app. simpl. apply app_nil_r. }
  assert (W1 : written (t ++ [EvOpen f]) = written t).
  { rewrite written_app. simpl. apply app_nil_r. }
  rewrite (subprocess_Popen_started c PIPE (ToFile f) status)
    by (rewrite S1; exact Hc).
  rewrite S1. fold p.
  set (t2 := (t ++ [EvOpen f]) ++ [EvSpawn p c PIPE (ToFile f)]).
  assert (S2 : spawned t2 = spawned t ++ [c]).
  { unfold t2. rewrite spawned_app, S1. reflexivity. }
  assert (W2 : written t2 = written t).
  { unfold t2. rewrite written_app, W1. simpl. apply app_nil_r. }
  rewrite (stdin_write_through p Make.yes_line os t2)
    by (rewrite S2, W2; exact Hw1).
  rewrite (stdin_write_through p Make.empty_line os
             (t2 ++ [EvWrite p Make.yes_line])).
  - unfold t2. rewrite <- !app_assoc. reflexivity.
  - rewrite spawned_app, written_app, S2, W2. simpl.
    rewrite app_nil_r. exact Hw2.
Qed.

(** The scripted configure in general.  With [--agree-cpc] set, when the
    child starts and its pipe takes both writes, [configure] opens the
    scratch file, starts the child, writes the line [yes] and then an
    empty line to the child's standard input, and closes the scratch
    file.  These two are the only writes; what is closed is the scratch
    file, and the phase ends with the child's standard input still
    open. *)
Theorem scripted_configure_writes_two_lines (v : string) (status : Z) os t :
  let c := ["./configure"; "--prefix=$PWD/bin"; "--with-cpc-modules"] in
  let f := List.length (opened t) in
  let p := List.length (spawned t) in
  let phase :=
    [EvOpen f; EvSpawn p c PIPE (ToFile f);
     EvWrite p Make.yes_line; EvWrite p Make.empty_line;
     EvClose (TempFile f)] in
  os_exec os (spawned t) c = Some status ->
  os_pipe os (spawned t ++ [c]) (written t) Make.yes_line = true ->
  os_pipe os (spawned t ++ [c]) (written t ++ [Make.yes_line])
    Make.empty_line = true ->
  Make.configure {| Make.agree_cpc := Some v |} os t = (Ok tt, t ++ phase)
  /\ written phase = [Make.yes_line; Make.empty_line]
  /\ closes_stdin p phase = false.
Proof.
  intros c f p phase Hc Hw1 Hw2.
  split; [|split; reflexivity].
  apply (configure_scripted_events v status os t Hc Hw1 Hw2).
Qed.

Lemma scripted_configure_writes_two_lines_witness :
  Make.configure {| Make.agree_cpc := Some "yes" |} os_fine []
  = (Ok tt,
     [EvOpen 0;
      EvSpawn 0 ["./configure"; "--prefix=$PWD/bin"; "--with-cpc-modules"]
        PIPE (ToFile 0);
      EvWrite 0 [x79; x65; x73; x0a]; EvWrite 0 [x0a];
      EvClose (TempFile 0)])
  /\ written
       [EvOpen 0;
        EvSpawn 0 ["./configure"; "--prefix=$PWD/bin"; "--with-cpc-modules"]
          PIPE (ToFile 0);
        EvWrite 0 [x79; x65; x73; x0a]; EvWrite 0 [x0a];
        EvClose (TempFile 0)]
     = [[x79; x65; x73; x0a]; [x0a]]
  /\ closes_stdin 0
       [EvOpen 0;
        EvSpawn 0 ["./configure"; "--prefix=$PWD/bin"; "--with-cpc-modules"]
          PIPE (ToFile 0);
        EvWrite 0 [x79; x65; x73; x0a]; EvWrite 0 [x0a];
        EvClose (TempFile 0)]
     = false.
Proof.
  apply (scripted_configure_writes_two_lines "yes" 0%Z os_fine []);
    reflexivity.
Defined.

(** C6 fails on the source.  With [--agree-cpc=yes] and every call of
    the operating system going well, [configure] writes the two lines to
    the child and then closes the scratch file [f]; no statement closes
    [p.stdin] (or waits for the child), so the input protocol of the
    specification, two lines and then the closing of the child's
    standard input, is not what the trace holds. *)
Lemma scripted_configure_leaves_stdin_open :
  ~ scripted_input_protocol
      (snd (Make.configure {| Make.agree_cpc := Some "yes" |} os_fine [])).
Proof.
  intros (p & before & after & E & _ & C).
  assert (N : closes_stdin p
                (snd (Make.configure {| Make.agree_cpc := Some "yes" |}
                        os_fine [])) = false) by reflexivity.
  rewrite E in N. unfold closes_stdin in N, C.
  rewrite existsb_app in N. simpl in N.
  rewrite C in N. rewrite orb_true_r in N. discriminate.
Qed.

(** ** The error of a failed phase *)

Lemma _call_value_error os commands : forall t msg t',
  Make._call commands os t = (Raise (ValueError msg), t') ->
  exists command p status t0,
    In command commands
    /\ msg = ("Install failed at " ++ command)%string
    /\ status <> 0%Z
    /\ t' = t0 ++ [EvSpawn p (split command) Inherit Inherit; EvWait p status].
Proof.
  induction commands as [|c rest IH]; intros t msg t' H.
  - simpl in H. unfold ret in H. discriminate.
  - simpl in H. unfold bind, subprocess_call in H.
    destruct (os_exec os (spawned t) (split c)) as [status|];
      [|discriminate].
    destruct (Z.eqb_spec status 0) as [E|E]; simpl in H.
    + destruct (IH _ _ _ H) as (command & p & st & t0 & Hin & Hm & Hs & Ht).
      exists command, p, st, t0. simpl. auto.
    + unfold raise in H. inversion H; subst.
      exists c, (List.length (spawned t)), status, t. simpl. auto.
Qed.

(** C7, as the source has it.  A [ValueError] that [_call] raises, for
    the regenerate, strict configure and build phases alike, names the
    command line that failed: its message is [Install failed at]
    followed by the command line whose process has just exited with a
    status other than 0.  The status itself is not in the exception. *)
Theorem phase_failure_names_command os commands t msg t' :
  Make._call commands os t = (Raise (ValueError msg), t') ->
  exists command p status t0,
    In command commands
    /\ msg = ("Install failed at " ++ command)%string
    /\ status <> 0%Z
    /\ t' = t0 ++ [EvSpawn p (split command) Inherit Inherit; EvWait p status].
Proof. apply _call_value_error. Qed.

Lemma phase_failure_names_command_witness :
  exists command p status t0,
    In command ["make"; "make check"; "make install"]
    /\ "Install failed at make check"
       = ("Install failed at " ++ command)%string
    /\ status <> 0%Z
    /\ [EvSpawn 0 ["make"] Inherit Inherit; EvWait 0 0;
        EvSpawn 1 ["make"; "check"] Inherit Inherit; EvWait 1 2]
       = t0 ++ [EvSpawn p (split command) Inherit Inherit; EvWait p status].
Proof.
  apply (phase_failure_names_command (os_one_fails ["make"; "check"] 2)
           ["make"; "make check"; "make install"] []).
  reflexivity.
Defined.

(** C7, as the specification words it, fails: [make] exiting with status
    1 and [make] exiting with status 2 raise the same exception, so no
    reading of the exception gives the status back. *)
Lemma phase_error_omits_status :
  ~ exists status_of : exn -> Z, error_gives_status status_of.
Proof.
  intros [status_of H].
  destruct (H (os_all 1) "make" 1%Z) as [e1 [E1 F1]];
    [reflexivity|discriminate|].
  destruct (H (os_all 2) "make" 2%Z) as [e2 [E2 F2]];
    [reflexivity|discriminate|].
  simpl in E1, E2. inversion E1; inversion E2; subst.
  rewrite F1 in F2. discriminate.
Qed.

(** The scripted configure raises nothing but [OSError]. *)
Lemma configure_scripted_no_value_error (v : string) os t msg t' :
  Make.configure {| Make.agree_cpc := Some v |} os t
  <> (Raise (ValueError msg), t').
Proof.
  unfold Make.configure, bind, tempfile_TemporaryFile, subprocess_Popen,
    stdin_write, file_close. simpl.
  destruct (os_exec os _ _); [|discriminate].
  destruct (os_pipe os _ _ _); [|discriminate].
  destruct (os_pipe os _ _ _); discriminate.
Qed.

(** The same for a whole run: a [ValueError] out of [run] names one of
    the five command lines of the strict phases. *)
Lemma run_value_error self os t msg t' :
  Make.run self os t = (Raise (ValueError msg), t') ->
  exists command p status t0,
    In command
      ["autoconf -o configure ac-tools/configure.ac";
       "./configure --prefix=$PWD/bin --with-cpc-modules";
       "make"; "make check"; "make install"]
    /\ msg = ("Install failed at " ++ command)%string
    /\ status <> 0%Z
    /\ t' = t0 ++ [EvSpawn p (split command) Inherit Inherit; EvWait p status].
Proof.
  unfold Make.run, bind. intros H.
  destruct (Make.autoconf os t) as [[[]|e] ta] eqn:Ea.
  - destruct (Make.configure self os ta) as [[[]|e] tc] eqn:Ec.
    + unfold Make.clean, bind, subprocess_call in H.
      destruct (os_exec os (spawned tc) (split "make clean")) as [sc|];
        [|discriminate].
      unfold ret in H.
      destruct (_call_value_error _ _ _ _ _ H)
        as (command & p & st & t0 & Hin & Hm & Hs & Ht).
      exists command, p, st, t0. simpl in Hin |- *. intuition.
    + inversion H; subst. destruct self as [[v|]].
      * exfalso. exact (configure_scripted_no_value_error _ _ _ _ _ Ec).
      * destruct (_call_value_error _ _ _ _ _ Ec)
          as (command & p & st & t0 & Hin & Hm & Hs & Ht).
        exists command, p, st, t0. simpl in Hin |- *. intuition.
  - inversion H; subst.
    destruct (_call_value_error _ _ _ _ _ Ea)
      as (command & p & st & t0 & Hin & Hm & Hs & Ht).
    exists command, p, st, t0. simpl in Hin |- *. intuition.
Qed.

(** ** One process at a time *)

Lemma check_seq_app (t u : Trace) : forall running,
  check_seq running (t ++ u)
  = match check_seq running t with
    | Some running' => check_seq running' u
    | None => None
    end.
Proof.
  induction t as [|e t IH]; intros running; simpl; [reflexivity|].
  destruct e; try apply IH.
  destruct running; [apply IH|reflexivity].
Qed.

Lemma check_seq_call (t : Trace) (p : nat) argv (status : Z) :
  check_seq [] t = Some [] ->
  check_seq [] (t ++ [EvSpawn p argv Inherit Inherit; EvWait p status])
  = Some [].
Proof.
  intros H. rewrite check_seq_app, H. simpl.
  destruct (Nat.eq_dec p p) as [_|N]; [reflexivity|contradiction].
Qed.

Lemma subprocess_call_sequential argv os t :
  check_seq [] t = Some [] ->
  check_seq [] (snd (subprocess_call argv os t)) = Some [].
Proof.
  intros H. unfold subprocess_call.
  destruct (os_exec os (spawned t) argv) as [status|]; simpl.
  - apply check_seq_call. exact H.
  - exact H.
Qed.

Lemma _call_sequential os commands : forall t,
  check_seq [] t = Some [] ->
  check_seq [] (snd (Make._call commands os t)) = Some [].
Proof.
  induction commands as [|c rest IH]; intros t H; simpl.
  - exact H.
  - unfold bind.
    pose proof (subprocess_call_sequential (split c) os t H) as Hc.
    destruct (subprocess_call (split c) os t) as [[status|e] t1];
      simpl in Hc |- *; [|exact Hc].
    destruct (negb (status =? 0)%Z); simpl; [exact Hc|].
    apply IH. exact Hc.
Qed.

(** With the option unset every process of the run is waited for before
    the next one is started. *)
Lemma run_unset_sequential os :
  sequential (snd (Make.run_command None os [])) = true.
Proof.
  assert (H : check_seq []
                (snd (Make.run {| Make.agree_cpc := None |} os [])) = Some []).
  { unfold Make.run, bind.
    pose proof (_call_sequential os
                  ["autoconf -o configure ac-tools/configure.ac"] []
                  eq_refl) as Ha.
    fold Make.autoconf in Ha.
    destruct (Make.autoconf os []) as [[[]|e] ta]; simpl in Ha |- *;
      [|exact Ha].
    pose proof (_call_sequential os
                  ["./configure --prefix=$PWD/bin --with-cpc-modules"] ta
                  Ha) as Hc.
    change (Make._call ["./configure --prefix=$PWD/bin --with-cpc-modules"])
      with (Make.configure {| Make.agree_cpc := None |}) in Hc.
    destruct (Make.configure _ os ta) as [[[]|e] tc]; simpl in Hc |- *;
      [|exact Hc].
    unfold Make.clean, bind.
    pose proof (subprocess_call_sequential (split "make clean") os tc Hc)
      as Hl.
    destruct (subprocess_call (split "make clean") os tc) as [[sc|e] tl];
      simpl in Hl |- *; [|exact Hl].
    unfold ret. apply _call_sequential. exact Hl. }
  unfold sequential.
  change (Make.run_command None os [])
    with (Make.run {| Make.agree_cpc := None |} os []).
  rewrite H. reflexivity.
Qed.

(** C8 fails on the source.  With [--agree-cpc=yes] and every call of the
    operating system going well, the configure child (process 1) is
    started and never waited for, and [make clean] (process 2) is started
    while it runs. *)
Theorem run_scripted_not_sequential :
  snd (Make.run_command (Some "yes") os_fine [])
  = [EvSpawn 0 ["autoconf"; "-o"; "configure"; "ac-tools/configure.ac"]
       Inherit Inherit; EvWait 0 0;
     EvOpen 0;
     EvSpawn 1 ["./configure"; "--prefix=$PWD/bin"; "--with-cpc-modules"]
       PIPE (ToFile 0);
     EvWrite 1 Make.yes_line; EvWrite 1 Make.empty_line;
     EvClose (TempFile 0);
     EvSpawn 2 ["make"; "clean"] Inherit Inherit; EvWait 2 0;
     EvSpawn 3 ["make"] Inherit Inherit; EvWait 3 0;
     EvSpawn 4 ["make"; "check"] Inherit Inherit; EvWait 4 0;
     EvSpawn 5 ["make"; "install"] Inherit Inherit; EvWait 5 0]
  /\ sequential (snd (Make.run_command (Some "yes") os_fine [])) = false
  /\ check_seq []
       (firstn 7 (snd (Make.run_command (Some "yes") os_fine [])))
     = Some [1].
Proof. repeat split. Qed.

(** ** The scratch file *)

(** C9 fails on the source.  With [--agree-cpc] set, when the pipe takes
    the first line and refuses the second, [configure] ends on the
    [OSError] of the write with the scratch file opened and not closed:
    [f.close()] is reached only when both writes have gone through. *)
Theorem scripted_configure_leaks_scratch_file :
  Make.configure {| Make.agree_cpc := Some "yes" |} (os_pipe_breaks 1) []
  = (Raise OSError,
     [EvOpen 0;
      EvSpawn 0 ["./configure"; "--prefix=$PWD/bin"; "--with-cpc-modules"]
        PIPE (ToFile 0);
      EvWrite 0 Make.yes_line])
  /\ still_open
       (snd (Make.configure {| Make.agree_cpc := Some "yes" |}
               (os_pipe_breaks 1) []))
     = [0]
  /\ still_open
       (snd (Make.configure {| Make.agree_cpc := Some "yes" |} os_fine []))
     = [].
Proof. repeat split. Qed.

Example scripted_configure_leaks_on_first_write :
  Make.configure {| Make.agree_cpc := Some "yes" |} (os_pipe_breaks 0) []
  = (Raise OSError,
     [EvOpen 0;
      EvSpawn 0 ["./configure"; "--prefix=$PWD/bin"; "--with-cpc-modules"]
        PIPE (ToFile 0)]).
Proof. reflexivity. Qed.

(** ** Command lines are split, not interpreted *)

Lemma chars_append (a b : string) :
  list_ascii_of_string (a ++ b)%string
  = list_ascii_of_string a ++ list_ascii_of_string b.
Proof.
  induction a as [|ch a IH]; simpl; [reflexivity|].
  rewrite IH. reflexivity.
Qed.

Lemma flush_token_tokens (cur : string) :
  (forall ch, In ch (list_ascii_of_string cur) -> isspace ch = false) ->
  Forall is_token (flush_token cur).
Proof.
  intros H. destruct cur as [|ch cur]; simpl.
  - constructor.
  - constructor; [|constructor]. split; [discriminate|exact H].
Qed.

Lemma flush_token_chars (cur : string) :
  List.concat (map list_ascii_of_string (flush_token cur))
  = list_ascii_of_string cur.
Proof.
  destruct cur as [|ch cur]; simpl; [reflexivity|].
  rewrite app_nil_r. reflexivity.
Qed.

Lemma split_from_tokens (s : string) : forall cur,
  (forall ch, In ch (list_ascii_of_string cur) -> isspace ch = false) ->
  Forall is_token (split_from s cur).
Proof.
  induction s as [|c s IH]; intros cur Hcur; simpl.
  - apply flush_token_tokens. exact Hcur.
  - destruct (isspace c) eqn:Ec.
    + apply Forall_app. split.
      * apply flush_token_tokens. exact Hcur.
      * apply IH. intros ch [].
    + apply IH. intros ch Hin. rewrite chars_append in Hin.
      apply in_app_or in Hin. destruct Hin as [Hin|Hin].
      * apply Hcur. exact Hin.
      * simpl in Hin. destruct Hin as [<-|[]]. exact Ec.
Qed.

Lemma split_from_chars (s : string) : forall cur,
  List.concat (map list_ascii_of_string (split_from s cur))
  = list_ascii_of_string cur
    ++ filter (fun ch => negb (isspace ch)) (list_ascii_of_string s).
Proof.
  induction s as [|c s IH]; intros cur; simpl.
  - rewrite app_nil_r. apply flush_token_chars.
  - destruct (isspace c) eqn:Ec; simpl.
    + rewrite map_app, concat_app, flush_token_chars, IH. reflexivity.
    + rewrite IH, chars_append, <- app_assoc. reflexivity.
Qed.

(** [split] cuts a command line at its whitespace and drops it: the
    tokens are not empty and hold no whitespace, and put end to end they
    are the other characters of the line, in order. *)
Lemma split_tokens (command : string) :
  Forall is_token (split command)
  /\ List.concat (map list_ascii_of_string (split command))
     = filter (fun ch => negb (isspace ch)) (list_ascii_of_string command).
Proof.
  split.
  - apply split_from_tokens. intros ch [].
  - unfold split. rewrite split_from_chars. reflexivity.
Qed.

Lemma starts_only_bind {A B : Type} (c : M A) (k : A -> M B) :
  starts_only_commands c ->
  (forall a, starts_only_commands (k a)) ->
  starts_only_commands (bind c k).
Proof.
  intros Hc Hk os t. unfold bind.
  destruct (Hc os t) as [l [El Il]].
  destruct (c os t) as [[a|e] t1]; simpl in El.
  - destruct (Hk a os t1) as [l' [El' Il']].
    exists (l ++ l'). split.
    + rewrite El', El, app_assoc. reflexivity.
    + apply incl_app; assumption.
  - exists l. simpl. auto.
Qed.

Lemma starts_only_call (commands : list string) :
  incl commands command_lines ->
  starts_only_commands (Make._call commands).
Proof.
  intros Hincl os t.
  destruct (_call_spawned os commands t) as [n Hn].
  exists (map split (firstn n commands)). split; [exact Hn|].
  intros argv Hin. apply in_map_iff in Hin. destruct Hin as [c [<- Hc]].
  apply in_map, Hincl. revert Hc. clear. revert n.
  induction commands as [|c0 rest IH]; intros [|n]; simpl; try tauto.
  intros [H|H]; [auto|right; eapply IH; exact H].
Qed.

Lemma starts_only_quiet {A : Type} (c : M A) :
  (forall os t, spawned (snd (c os t)) = spawned t) ->
  starts_only_commands c.
Proof.
  intros H os t. exists []. rewrite H, app_nil_r. split; [reflexivity|].
  intros x [].
Qed.

Lemma starts_only_configure self : starts_only_commands (Make.configure self).
Proof.
  unfold Make.configure. destruct (Make.agree_cpc self) as [v|].
  - apply starts_only_bind.
    { apply starts_only_quiet. intros os t. simpl.
      rewrite spawned_app. apply app_nil_r. }
    intros f. apply starts_only_bind.
    { intros os t. unfold subprocess_Popen.
      destruct (os_exec os (spawned t) _); simpl.
      - eexists. rewrite spawned_app. split; [reflexivity|].
        intros x [<-|[]]. vm_compute. tauto.
      - exists []. rewrite app_nil_r. split; [reflexivity|]. intros x []. }
    intros p. apply starts_only_bind.
    { apply starts_only_quiet. intros os t. unfold stdin_write.
      destruct (os_pipe os _ _ _); simpl; [|reflexivity].
      rewrite spawned_app. apply app_nil_r. }
    intros _. apply starts_only_bind.
    { apply starts_only_quiet. intros os t. unfold stdin_write.
      destruct (os_pipe os _ _ _); simpl; [|reflexivity].
      rewrite spawned_app. apply app_nil_r. }
    intros _. apply starts_only_quiet. intros os t. simpl.
    rewrite spawned_app. apply app_nil_r.
  - apply starts_only_call. intros x [<-|[]]. simpl. tauto.
Qed.

Lemma starts_only_clean : starts_only_commands Make.clean.
Proof.
  intros os t.
  destruct (_call_spawned os ["make clean"] t) as [n Hn].
  destruct (starts_only_call ["make clean"]
              ltac:(intros x [<-|[]]; simpl; tauto) os t) as [l [El Il]].
  exists l. split; [|exact Il]. rewrite <- El.
  unfold Make.clean, Make._call, bind.
  destruct (subprocess_call (split "make clean") os t) as [[status|e] t1];
    [|reflexivity].
  destruct (negb (status =? 0)%Z); reflexivity.
Qed.

Lemma starts_only_run self : starts_only_commands (Make.run self).
Proof.
  unfold Make.run.
  apply starts_only_bind.
  { apply starts_only_call. intros x [<-|[]]. simpl. tauto. }
  intros _. apply starts_only_bind; [apply starts_only_configure|].
  intros _. apply starts_only_bind; [apply starts_only_clean|].
  intros _. apply starts_only_call.
  intros x [<-|[<-|[<-|[]]]]; simpl; tauto.
Qed.

Lemma configure_spawned self (status : Z) os t :
  os_exec os (spawned t)
    ["./configure"; "--prefix=$PWD/bin"; "--with-cpc-modules"]
  = Some status ->
  spawned (snd (Make.configure self os t))
  = spawned t ++ [["./configure"; "--prefix=$PWD/bin"; "--with-cpc-modules"]].
Proof.
  intros H. unfold Make.configure. destruct (Make.agree_cpc self) as [v|].
  - unfold bind, tempfile_TemporaryFile. simpl.
    change (split "./configure --prefix=$PWD/bin --with-cpc-modules")
      with ["./configure"; "--prefix=$PWD/bin"; "--with-cpc-modules"].
    assert (S1 : spawned (t ++ [EvOpen (List.length (opened t))]) = spawned t).
    { rewrite spawned_app. apply app_nil_r. }
    rewrite (subprocess_Popen_started _ _ _ status) by (rewrite S1; exact H).
    unfold stdin_write, file_close.
    repeat match goal with
           | |- context [if ?b then _ else _] => destruct b
           end;
      simpl; rewrite !spawned_app; simpl; rewrite ?app_nil_r;
      reflexivity.
  - unfold Make._call, bind.
    change (split "./configure --prefix=$PWD/bin --with-cpc-modules")
      with ["./configure"; "--prefix=$PWD/bin"; "--with-cpc-modules"].
    rewrite (subprocess_call_started _ status) by exact H.
    destruct (negb (status =? 0)%Z); simpl; rewrite spawned_app; reflexivity.
Qed.

(** C10. A command line is cut at its whitespace by [split] and the
    tokens are the argument vector of the process, as they are: [_call]
    starts each of its commands on [split command], and the configure
    process, with the option unset or set, is started on [./configure],
    [--prefix=$PWD/bin], [--with-cpc-modules], the text [$PWD] being part
    of the second argument.  No process of a run is started on anything
    but the tokens of one of the six command lines. *)
Theorem commands_started_on_their_tokens option os :
  (forall commands t,
     exists n,
       spawned (snd (Make._call commands os t))
       = spawned t ++ map split (firstn n commands))
  /\ (forall t status,
       os_exec os (spawned t)
         ["./configure"; "--prefix=$PWD/bin"; "--with-cpc-modules"]
       = Some status ->
       spawned (snd (Make.configure {| Make.agree_cpc := option |} os t))
       = spawned t
         ++ [["./configure"; "--prefix=$PWD/bin"; "--with-cpc-modules"]])
  /\ (forall argv,
       In argv (spawned (snd (Make.run {| Make.agree_cpc := option |} os []))) ->
       In argv
         [["autoconf"; "-o"; "configure"; "ac-tools/configure.ac"];
          ["./configure"; "--prefix=$PWD/bin"; "--with-cpc-modules"];
          ["make"; "clean"];
          ["make"];
          ["make"; "check"];
          ["make"; "install"]])
  /\ split "./configure --prefix=$PWD/bin --with-cpc-modules"
     = ["./configure"; "--prefix=$PWD/bin"; "--with-cpc-modules"].
Proof.
  split; [intros commands t; apply _call_spawned|].
  split; [intros t status H; apply (configure_spawned _ status); exact H|].
  split; [|reflexivity].
  intros argv Hin.
  destruct (starts_only_run {| Make.agree_cpc := option |} os [])
    as [l [El Il]].
  rewrite El in Hin. simpl in Hin. apply Il in Hin. exact Hin.
Qed.

Lemma commands_started_on_their_tokens_witness :
  spawned (snd (Make.configure {| Make.agree_cpc := Some "yes" |}
                  (os_pipe_breaks 1) []))
  = [["./configure"; "--prefix=$PWD/bin"; "--with-cpc-modules"]]
  /\ spawned (snd (Make.configure {| Make.agree_cpc := None |}
                     (os_all 3) []))
     = [["./configure"; "--prefix=$PWD/bin"; "--with-cpc-modules"]].
Proof.
  split.
  - apply (proj1 (proj2 (commands_started_on_their_tokens
                           (Some "yes") (os_pipe_breaks 1))) [] 0%Z).
    reflexivity.
  - apply (proj1 (proj2 (commands_started_on_their_tokens
                           None (os_all 3))) [] 3%Z).
    reflexivity.
Defined.

Example scripted_configure_leaks_when_not_started :
  Make.configure {| Make.agree_cpc := Some "yes" |}
    (os_cannot_start ["./configure"; "--prefix=$PWD/bin"; "--with-cpc-modules"])
    []
  = (Raise OSError, [EvOpen 0]).
Proof. reflexivity. Qed.

(** * Further properties of the command *)

(** ** Which options pass *)

(** [finalize_options] returns normally exactly when the option is unset
    or is the string [yes], and it never touches the trace; the object
    that [initialize_options] makes passes. *)
Theorem finalize_options_accepts_exactly self os t :
  (fst (Make.finalize_options self os t) = Ok tt
   <-> Make.agree_cpc self = None \/ Make.agree_cpc self = Some "yes")
  /\ snd (Make.finalize_options self os t) = t
  /\ Make.finalize_options Make.initialize_options os t = (Ok tt, t).
Proof.
  split; [|split; [|reflexivity]].
  - unfold Make.finalize_options.
    destruct (Make.agree_cpc self) as [v|]; simpl.
    + destruct (String.eqb_spec v "yes") as [E|E]; simpl.
      * subst v. split; auto.
      * split; [discriminate|].
        intros [H|H]; [discriminate|]. inversion H. contradiction.
    + split; auto.
  - unfold Make.finalize_options.
    destruct (Make.agree_cpc self) as [v|]; [|reflexivity].
    destruct (negb (v =? "yes")%string); reflexivity.
Qed.

(** ** How [_call] composes *)

(** Commands that exit with status 0 are run and [_call] goes on with
    what is behind them: a list is run as its front, then its back. *)
Lemma _call_app os pre rest : forall t,
  all_succeed os (spawned t) pre ->
  Make._call (pre ++ rest) os t
  = Make._call rest os (t ++ call_events (List.length (spawned t)) pre).
Proof.
  induction pre as [|c pre IH]; intros t H.
  - simpl. rewrite app_nil_r. reflexivity.
  - destruct H as [H0 H]. simpl app.
    rewrite (_call_cons_zero _ _ _ _ H0).
    rewrite IH by (rewrite spawned_app; exact H).
    rewrite spawned_app, length_app, <- app_assoc. simpl.
    rewrite Nat.add_1_r. reflexivity.
Qed.

(** A normal return of [_call] has run the whole list, each command
    exiting with status 0. *)
Lemma _call_returns os commands : forall t t',
  Make._call commands os t = (Ok tt, t') ->
  t' = t ++ call_events (List.length (spawned t)) commands
  /\ all_succeed os (spawned t) commands.
Proof.
  induction commands as [|c rest IH]; intros t t' H.
  - simpl in H. unfold ret in H. inversion H. rewrite app_nil_r.
    split; [reflexivity|exact I].
  - simpl in H. unfold bind, subprocess_call in H.
    destruct (os_exec os (spawned t) (split c)) as [status|] eqn:E;
      [|discriminate].
    destruct (Z.eqb_spec status 0) as [Z|Z]; simpl in H;
      [|unfold raise in H; discriminate].
    subst status. apply IH in H. destruct H as [Ht Hs].
    rewrite spawned_app, length_app in Ht. simpl in Ht.
    rewrite Nat.add_1_r, <- app_assoc in Ht.
    rewrite spawned_app in Hs.
    split; [exact Ht|]. split; [exact E|exact Hs].
Qed.

(** [_call] returns normally if and only if every command of the list,
    run in turn, can be started and exits with status 0. *)
Theorem _call_returns_iff_all_succeed os commands t :
  fst (Make._call commands os t) = Ok tt
  <-> all_succeed os (spawned t) commands.
Proof.
  split.
  - intros H.
    destruct (Make._call commands os t) as [r t'] eqn:E. simpl in H.
    subst r. apply (_call_returns _ _ _ _ E).
  - intros H. rewrite (_call_all_succeed _ _ _ H). reflexivity.
Qed.

(** When a command of the list cannot be started, after commands that
    exited with status 0, [_call] ends on the [OSError] of the library,
    not on its own [ValueError], and runs nothing more. *)
Theorem _call_stops_when_not_started os pre command post t :
  all_succeed os (spawned t) pre ->
  os_exec os (spawned t ++ map split pre) (split command) = None ->
  Make._call (pre ++ command :: post) os t
  = (Raise OSError, t ++ call_events (List.length (spawned t)) pre).
Proof.
  intros Hpre Hc. rewrite (_call_app _ _ _ _ Hpre).
  apply _call_cons_refused.
  rewrite spawned_app, spawned_call_events. exact Hc.
Qed.

Lemma _call_stops_when_not_started_witness :
  Make._call ["make"; "make check"; "make install"]
    (os_cannot_start ["make"; "check"]) []
  = (Raise OSError, [EvSpawn 0 ["make"] Inherit Inherit; EvWait 0 0]).
Proof.
  apply (_call_stops_when_not_started (os_cannot_start ["make"; "check"])
           ["make"] "make check" ["make install"] []).
  - simpl. split; [reflexivity|exact I].
  - reflexivity.
Defined.

(** ** Failures that end the run *)

(** When autoconf exits with a status other than 0, [run] raises the
    [ValueError] that names the autoconf command line, with the option
    unset or set, and no other process is started: the trace ends at the
    wait for autoconf. *)
Theorem autoconf_failure_ends_run self os t (status : Z) :
  let a := ["autoconf"; "-o"; "configure"; "ac-tools/configure.ac"] in
  os_exec os (spawned t) a = Some status ->
  status <> 0%Z ->
  Make.run self os t
  = (Raise (ValueError
              "Install failed at autoconf -o configure ac-tools/configure.ac"),
     t ++ [EvSpawn (List.length (spawned t)) a Inherit Inherit;
           EvWait (List.length (spawned t)) status]).
Proof.
  intros a Ha Hs. unfold Make.run, bind, Make.autoconf.
  rewrite (_call_cons_nonzero _ _ status); [reflexivity|exact Ha|exact Hs].
Qed.

Lemma autoconf_failure_ends_run_witness :
  Make.run {| Make.agree_cpc := Some "yes" |}
    (os_one_fails ["autoconf"; "-o"; "configure"; "ac-tools/configure.ac"] 127)
    []
  = (Raise (ValueError
              "Install failed at autoconf -o configure ac-tools/configure.ac"),
     [EvSpawn 0 ["autoconf"; "-o"; "configure"; "ac-tools/configure.ac"]
        Inherit Inherit;
      EvWait 0 127]).
Proof.
  apply (autoconf_failure_ends_run {| Make.agree_cpc := Some "yes" |}
           (os_one_fails
              ["autoconf"; "-o"; "configure"; "ac-tools/configure.ac"] 127)
           [] 127%Z).
  - reflexivity.
  - discriminate.
Defined.

(** With the option unset, when autoconf exits with status 0 and
    configure with another status, [run] raises the [ValueError] that
    names the configure command line; neither [make clean] nor any
    command of the build is started. *)
Theorem strict_configure_failure_ends_run os t (status : Z) :
  let a := ["autoconf"; "-o"; "configure"; "ac-tools/configure.ac"] in
  let c := ["./configure"; "--prefix=$PWD/bin"; "--with-cpc-modules"] in
  let n := List.length (spawned t) in
  os_exec os (spawned t) a = Some 0%Z ->
  os_exec os (spawned t ++ [a]) c = Some status ->
  status <> 0%Z ->
  Make.run {| Make.agree_cpc := None |} os t
  = (Raise (ValueError
              "Install failed at ./configure --prefix=$PWD/bin --with-cpc-modules"),
     t ++ [EvSpawn n a Inherit Inherit; EvWait n 0;
           EvSpawn (S n) c Inherit Inherit; EvWait (S n) status]).
Proof.
  intros a c n Ha Hc Hs.
  assert (Ea : Make.autoconf os t
               = (Ok tt, t ++ [EvSpawn n a Inherit Inherit; EvWait n 0])).
  { unfold Make.autoconf. rewrite _call_cons_zero by exact Ha. reflexivity. }
  assert (Ec : Make.configure {| Make.agree_cpc := None |} os
                 (t ++ [EvSpawn n a Inherit Inherit; EvWait n 0])
               = (Raise (ValueError
                    "Install failed at ./configure --prefix=$PWD/bin --with-cpc-modules"),
                  (t ++ [EvSpawn n a Inherit Inherit; EvWait n 0])
                    ++ [EvSpawn (S n) c Inherit Inherit;
                        EvWait (S n) status])).
  { change (Make.configure {| Make.agree_cpc := None |})
      with (Make._call ["./configure --prefix=$PWD/bin --with-cpc-modules"]).
    rewrite (_call_cons_nonzero _ _ status).
    - rewrite spawned_app, length_app. simpl. fold n.
      rewrite Nat.add_1_r. reflexivity.
    - rewrite spawned_app. exact Hc.
    - exact Hs. }
  unfold Make.run, bind. rewrite Ea, Ec, <- app_assoc. reflexivity.
Qed.

Lemma strict_configure_failure_ends_run_witness :
  Make.run {| Make.agree_cpc := None |}
    (os_one_fails ["./configure"; "--prefix=$PWD/bin"; "--with-cpc-modules"] 1)
    []
  = (Raise (ValueError
              "Install failed at ./configure --prefix=$PWD/bin --with-cpc-modules"),
     [EvSpawn 0 ["autoconf"; "-o"; "configure"; "ac-tools/configure.ac"]
        Inherit Inherit; EvWait 0 0;
      EvSpawn 1 ["./configure"; "--prefix=$PWD/bin"; "--with-cpc-modules"]
        Inherit Inherit; EvWait 1 1]).
Proof.
  apply (strict_configure_failure_ends_run
           (os_one_fails
              ["./configure"; "--prefix=$PWD/bin"; "--with-cpc-modules"] 1)
           [] 1%Z).
  - reflexivity.
  - reflexivity.
  - discriminate.
Defined.

(** After autoconf and configure have gone through and [make clean] has
    run, the first command of the build that exits with a status other
    than 0 ends [run] with the [ValueError] naming it; the commands of
    the build behind it are not started. *)
Theorem build_failure_ends_run self os t t1 (sc : Z) pre command post
    (status : Z) :
  let t2 :=
    t1 ++ [EvSpawn (List.length (spawned t1)) ["make"; "clean"]
             Inherit Inherit;
           EvWait (List.length (spawned t1)) sc] in
  bind Make.autoconf (fun _ => Make.configure self) os t = (Ok tt, t1) ->
  os_exec os (spawned t1) ["make"; "clean"] = Some sc ->
  pre ++ command :: post = ["make"; "make check"; "make install"] ->
  all_succeed os (spawned t2) pre ->
  os_exec os (spawned t2 ++ map split pre) (split command) = Some status ->
  status <> 0%Z ->
  Make.run self os t
  = (Raise (ValueError ("Install failed at " ++ command)%string),
     t2 ++ call_events (List.length (spawned t2)) pre
        ++ [EvSpawn (List.length (spawned t2) + List.length pre)
              (split command) Inherit Inherit;
            EvWait (List.length (spawned t2) + List.length pre) status]).
Proof.
  intros t2 Hpre Hclean Hsplit Hok Hc Hs.
  rewrite run_as_phases, Hpre. unfold bind.
  rewrite (clean_started _ _ _ Hclean). fold t2.
  unfold Make.make. rewrite <- Hsplit.
  rewrite (_call_app _ _ _ _ Hok).
  rewrite (_call_cons_nonzero _ _ status).
  - rewrite spawned_app, spawned_call_events, length_app, length_map.
    rewrite <- app_assoc. reflexivity.
  - rewrite spawned_app, spawned_call_events. exact Hc.
  - exact Hs.
Qed.

Lemma build_failure_ends_run_witness :
  Make.run {| Make.agree_cpc := None |} (os_one_fails ["make"; "check"] 2) []
  = (Raise (ValueError "Install failed at make check"),
     [EvSpawn 0 ["autoconf"; "-o"; "configure"; "ac-tools/configure.ac"]
        Inherit Inherit; EvWait 0 0;
      EvSpawn 1 ["./configure"; "--prefix=$PWD/bin"; "--with-cpc-modules"]
        Inherit Inherit; EvWait 1 0;
      EvSpawn 2 ["make"; "clean"] Inherit Inherit; EvWait 2 0;
      EvSpawn 3 ["make"] Inherit Inherit; EvWait 3 0;
      EvSpawn 4 ["make"; "check"] Inherit Inherit; EvWait 4 2]).
Proof.
  apply (build_failure_ends_run {| Make.agree_cpc := None |}
           (os_one_fails ["make"; "check"] 2) []
           [EvSpawn 0 ["autoconf"; "-o"; "configure"; "ac-tools/configure.ac"]
              Inherit Inherit; EvWait 0 0;
            EvSpawn 1
              ["./configure"; "--prefix=$PWD/bin"; "--with-cpc-modules"]
              Inherit Inherit; EvWait 1 0]
           0%Z ["make"] "make check" ["make install"] 2%Z).
  - reflexivity.
  - reflexivity.
  - reflexivity.
  - simpl. split; [reflexivity|exact I].
  - reflexivity.
  - discriminate.
Defined.

(** [clean] overlooks the status [make clean] exits with, not a [make]
    that cannot be started: then the [OSError] of [subprocess.call] goes
    through [clean], and [run] ends there without starting the build. *)
Theorem clean_not_started_ends_run self os t t1 :
  bind Make.autoconf (fun _ => Make.configure self) os t = (Ok tt, t1) ->
  os_exec os (spawned t1) ["make"; "clean"] = None ->
  Make.clean os t1 = (Raise OSError, t1)
  /\ Make.run self os t = (Raise OSError, t1).
Proof.
  intros Hpre Hclean.
  assert (E : Make.clean os t1 = (Raise OSError, t1)).
  { unfold Make.clean, bind.
    change (split "make clean") with ["make"; "clean"].
    rewrite (subprocess_call_refused _ _ _ Hclean). reflexivity. }
  split; [exact E|].
  rewrite run_as_phases, Hpre. unfold bind. rewrite E. reflexivity.
Qed.

Lemma clean_not_started_ends_run_witness :
  let t1 :=
    [EvSpawn 0 ["autoconf"; "-o"; "configure"; "ac-tools/configure.ac"]
       Inherit Inherit; EvWait 0 0;
     EvSpawn 1 ["./configure"; "--prefix=$PWD/bin"; "--with-cpc-modules"]
       Inherit Inherit; EvWait 1 0] in
  Make.clean (os_cannot_start ["make"; "clean"]) t1 = (Raise OSError, t1)
  /\ Make.run {| Make.agree_cpc := None |}
       (os_cannot_start ["make"; "clean"]) []
     = (Raise OSError, t1).
Proof.
  intros t1.
  apply (clean_not_started_ends_run {| Make.agree_cpc := None |}
           (os_cannot_start ["make"; "clean"]) [] t1);
    reflexivity.
Defined.

(** ** The ways the scripted configure can end *)

Lemma configure_scripted_cases (v : string) os t :
  let c := ["./configure"; "--prefix=$PWD/bin"; "--with-cpc-modules"] in
  let f := List.length (opened t) in
  let p := List.length (spawned t) in
  Make.configure {| Make.agree_cpc := Some v |} os t
  = match os_exec os (spawned t) c with
    | None => (Raise OSError, t ++ [EvOpen f])
    | Some _ =>
        if os_pipe os (spawned t ++ [c]) (written t) Make.yes_line
        then
          if os_pipe os (spawned t ++ [c]) (written t ++ [Make.yes_line])
               Make.empty_line
          then (Ok tt,
                t ++ [EvOpen f; EvSpawn p c PIPE (ToFile f);
                      EvWrite p Make.yes_line; EvWrite p Make.empty_line;
                      EvClose (TempFile f)])
          else (Raise OSError,
                t ++ [EvOpen f; EvSpawn p c PIPE (ToFile f);
                      EvWrite p Make.yes_line])
        else (Raise OSError, t ++ [EvOpen f; EvSpawn p c PIPE (ToFile f)])
    end.
Proof.
  intros c f p.
  destruct (os_exec os (spawned t) c) as [status|] eqn:Ec.
  - destruct (os_pipe os (spawned t ++ [c]) (written t) Make.yes_line)
      eqn:E1.
    + destruct (os_pipe os (spawned t ++ [c]) (written t ++ [Make.yes_line])
                  Make.empty_line) eqn:E2.
      * apply (configure_scripted_events v status os t Ec E1 E2).
      * unfold Make.configure, bind, tempfile_TemporaryFile. simpl.
        change (split "./configure --prefix=$PWD/bin --with-cpc-modules")
          with c.
        fold f.
        assert (S1 : spawned (t ++ [EvOpen f]) = spawned t).
        { rewrite spawned_app. apply app_nil_r. }
        assert (W1 : written (t ++ [EvOpen f]) = written t).
        { rewrite written_app. apply app_nil_r. }
        rewrite (subprocess_Popen_started c PIPE (ToFile f) status)
          by (rewrite S1; exact Ec).
        rewrite S1. fold p.
        rewrite stdin_write_through.
        2:{ rewrite !spawned_app, !written_app. simpl.
            rewrite !app_nil_r. exact E1. }
        rewrite stdin_write_broken.
        2:{ rewrite !spawned_app, !written_app. simpl.
            rewrite !app_nil_r. exact E2. }
        rewrite <- !app_assoc. reflexivity.
    + unfold Make.configure, bind, tempfile_TemporaryFile. simpl.
      change (split "./configure --prefix=$PWD/bin --with-cpc-modules")
        with c.
      fold f.
      assert (S1 : spawned (t ++ [EvOpen f]) = spawned t).
      { rewrite spawned_app. apply app_nil_r. }
      rewrite (subprocess_Popen_started c PIPE (ToFile f) status)
        by (rewrite S1; exact Ec).
      rewrite S1. fold p.
      rewrite stdin_write_broken.
      2:{ rewrite !spawned_app, !written_app. simpl.
          rewrite !app_nil_r. exact E1. }
      rewrite <- !app_assoc. reflexivity.
  - unfold Make.configure, bind, tempfile_TemporaryFile. simpl.
    change (split "./configure --prefix=$PWD/bin --with-cpc-modules")
      with c.
    fold f.
    unfold subprocess_Popen.
    rewrite spawned_app. simpl. rewrite app_nil_r, Ec. reflexivity.
Qed.

(** With the option set, [configure] creates the scratch file [f] and
    then, from the [Popen] call on, ends in one of four ways, whatever
    the operating system does: on [OSError] with nothing done (the child
    cannot be started), on [OSError] after the child is started (the
    first write fails), on [OSError] after the first line is written
    (the second write fails), or normally after both lines and the
    closing of [f].  It never raises a [ValueError], and it never writes
    the empty line before [yes]. *)
Theorem scripted_child_outcomes (v : string) os t (f : nat) t0 :
  let c := ["./configure"; "--prefix=$PWD/bin"; "--with-cpc-modules"] in
  let p := List.length (spawned t0) in
  Make.configure {| Make.agree_cpc := Some v |} os t
  = bind tempfile_TemporaryFile configure_child os t
  /\ (configure_child f os t0 = (Raise OSError, t0)
      \/ configure_child f os t0
         = (Raise OSError, t0 ++ [EvSpawn p c PIPE (ToFile f)])
      \/ configure_child f os t0
         = (Raise OSError,
            t0 ++ [EvSpawn p c PIPE (ToFile f); EvWrite p Make.yes_line])
      \/ configure_child f os t0
         = (Ok tt,
            t0 ++ [EvSpawn p c PIPE (ToFile f);
                   EvWrite p Make.yes_line; EvWrite p Make.empty_line;
                   EvClose (TempFile f)])).
Proof.
  intros c p. split; [reflexivity|].
  unfold configure_child, bind, subprocess_Popen, stdin_write, file_close.
  change (split "./configure --prefix=$PWD/bin --with-cpc-modules") with c.
  fold p.
  destruct (os_exec os (spawned t0) c); [|left; reflexivity].
  right.
  destruct (os_pipe os _ _ Make.yes_line); [|left; reflexivity].
  right.
  destruct (os_pipe os _ _ Make.empty_line);
    [right|left]; rewrite <- !app_assoc; reflexivity.
Qed.

(** ** The order of the processes *)

Lemma runs_prefix_bind seg1 seg2 (c1 c2 : M unit) :
  runs_prefix_of seg1 c1 ->
  runs_prefix_of seg2 c2 ->
  runs_prefix_of (seg1 ++ seg2) (bind c1 (fun _ => c2)).
Proof.
  intros H1 H2 os t. unfold bind.
  destruct (H1 os t) as (s1 & r1 & E1 & Sp1 & Ok1).
  destruct (c1 os t) as [[[]|e] t1]; simpl in Sp1, Ok1.
  - rewrite (Ok1 eq_refl), app_nil_r in E1. subst s1.
    destruct (H2 os t1) as (s2 & r2 & E2 & Sp2 & Ok2).
    exists (seg1 ++ s2), r2. split; [|split].
    + rewrite E2, app_assoc. reflexivity.
    + rewrite Sp2, Sp1, app_assoc. reflexivity.
    + exact Ok2.
  - exists s1, (r1 ++ seg2). split; [|split].
    + rewrite E1, app_assoc. reflexivity.
    + exact Sp1.
    + simpl. discriminate.
Qed.

Lemma runs_prefix_call commands :
  runs_prefix_of (map split commands) (Make._call commands).
Proof.
  intros os t.
  destruct (Make._call commands os t) as [[[]|e] t'] eqn:E.
  - exists (map split commands), []. split; [|split].
    + rewrite app_nil_r. reflexivity.
    + destruct (_call_returns _ _ _ _ E) as [-> _]. simpl.
      rewrite spawned_app, spawned_call_events. reflexivity.
    + reflexivity.
  - destruct (_call_spawned os commands t) as [n Hn]. rewrite E in Hn.
    exists (map split (firstn n commands)), (map split (skipn n commands)).
    split; [|split].
    + rewrite <- map_app, firstn_skipn. reflexivity.
    + exact Hn.
    + simpl. discriminate.
Qed.

Lemma runs_prefix_configure self :
  runs_prefix_of [["./configure"; "--prefix=$PWD/bin"; "--with-cpc-modules"]]
    (Make.configure self).
Proof.
  destruct self as [[v|]].
  - intros os t.
    destruct (os_exec os (spawned t)
                ["./configure"; "--prefix=$PWD/bin"; "--with-cpc-modules"])
      as [status|] eqn:Ec.
    + exists [["./configure"; "--prefix=$PWD/bin"; "--with-cpc-modules"]], [].
      split; [reflexivity|]. split; [|reflexivity].
      apply (configure_spawned _ status). exact Ec.
    + exists [], [["./configure"; "--prefix=$PWD/bin"; "--with-cpc-modules"]].
      rewrite configure_scripted_cases, Ec. simpl.
      split; [reflexivity|]. split; [|discriminate].
      rewrite spawned_app. reflexivity.
  - apply (runs_prefix_call
             ["./configure --prefix=$PWD/bin --with-cpc-modules"]).
Qed.

Lemma runs_prefix_clean : runs_prefix_of [["make"; "clean"]] Make.clean.
Proof.
  intros os t.
  destruct (os_exec os (spawned t) ["make"; "clean"]) as [sc|] eqn:Ec.
  - exists [["make"; "clean"]], []. rewrite (clean_started _ _ _ Ec). simpl.
    split; [reflexivity|]. split; [|reflexivity].
    rewrite spawned_app. reflexivity.
  - exists [], [["make"; "clean"]].
    unfold Make.clean, bind.
    change (split "make clean") with ["make"; "clean"].
    rewrite (subprocess_call_refused _ _ _ Ec). simpl.
    split; [reflexivity|]. split; [|discriminate].
    rewrite app_nil_r. reflexivity.
Qed.

Lemma runs_prefix_run self :
  runs_prefix_of (map split command_lines) (Make.run self).
Proof.
  unfold Make.run.
  apply (runs_prefix_bind
           [["autoconf"; "-o"; "configure"; "ac-tools/configure.ac"]]).
  { apply (runs_prefix_call ["autoconf -o configure ac-tools/configure.ac"]). }
  apply (runs_prefix_bind
           [["./configure"; "--prefix=$PWD/bin"; "--with-cpc-modules"]]).
  { apply runs_prefix_configure. }
  apply (runs_prefix_bind [["make"; "clean"]]).
  { apply runs_prefix_clean. }
  apply (runs_prefix_call ["make"; "make check"; "make install"]).
Qed.

(** Whatever the operating system does and with the option unset or set,
    the processes that [run] starts are an initial part of the fixed
    sequence autoconf, configure, make clean, make, make check, make
    install: none is skipped and the order never changes.  A [run] that
    returns normally has started all six. *)
Theorem run_starts_initial_part self os t :
  exists started rest,
    [["autoconf"; "-o"; "configure"; "ac-tools/configure.ac"];
     ["./configure"; "--prefix=$PWD/bin"; "--with-cpc-modules"];
     ["make"; "clean"];
     ["make"];
     ["make"; "check"];
     ["make"; "install"]]
    = started ++ rest
    /\ spawned (snd (Make.run self os t)) = spawned t ++ started
    /\ (fst (Make.run self os t) = Ok tt -> rest = []).
Proof. exact (runs_prefix_run self os t). Qed.

(** A [run] returns normally only when autoconf, configure (where its
    status is read, that is with the option unset) and the three
    commands of the build have each exited with status 0: the trace it
    leaves is then the one below, in which only the status of
    [make clean] is free. *)
Theorem run_returns_only_after_success self os t t' :
  let n := List.length (spawned t) in
  let f := List.length (opened t) in
  let a := ["autoconf"; "-o"; "configure"; "ac-tools/configure.ac"] in
  let c := ["./configure"; "--prefix=$PWD/bin"; "--with-cpc-modules"] in
  Make.run self os t = (Ok tt, t') ->
  exists sc : Z,
    t' = t ++ [EvSpawn n a Inherit Inherit; EvWait n 0]
           ++ match Make.agree_cpc self with
              | None => [EvSpawn (S n) c Inherit Inherit; EvWait (S n) 0]
              | Some _ =>
                  [EvOpen f; EvSpawn (S n) c PIPE (ToFile f);
                   EvWrite (S n) Make.yes_line;
                   EvWrite (S n) Make.empty_line;
                   EvClose (TempFile f)]
              end
           ++ [EvSpawn (S (S n)) ["make"; "clean"] Inherit Inherit;
               EvWait (S (S n)) sc;
               EvSpawn (S (S (S n))) ["make"] Inherit Inherit;
               EvWait (S (S (S n))) 0;
               EvSpawn (S (S (S (S n)))) ["make"; "check"] Inherit Inherit;
               EvWait (S (S (S (S n)))) 0;
               EvSpawn (S (S (S (S (S n))))) ["make"; "install"]
                 Inherit Inherit;
               EvWait (S (S (S (S (S n))))) 0].
Proof.
  intros n f a c H. unfold Make.run, bind in H.
  destruct (Make.autoconf os t) as [[[]|e] ta] eqn:Ea; [|discriminate].
  destruct (Make.configure self os ta) as [[[]|e] tc] eqn:Ec; [|discriminate].
  destruct (Make.clean os tc) as [[[]|e] tl] eqn:El; [|discriminate].
  apply _call_returns in Ea. destruct Ea as [Ea _].
  apply _call_returns in H. destruct H as [H _].
  assert (Sa : spawned ta = spawned t ++ [a]).
  { rewrite Ea, spawned_app. reflexivity. }
  assert (Oa : opened ta = opened t).
  { rewrite Ea, opened_app. apply app_nil_r. }
  assert (Sc : spawned tc = spawned t ++ [a; c]
               /\ tc = ta ++ match Make.agree_cpc self with
                           | None =>
                               [EvSpawn (S n) c Inherit Inherit;
                                EvWait (S n) 0]
                           | Some _ =>
                               [EvOpen f; EvSpawn (S n) c PIPE (ToFile f);
                                EvWrite (S n) Make.yes_line;
                                EvWrite (S n) Make.empty_line;
                                EvClose (TempFile f)]
                           end).
  { assert (Ln : List.length (spawned ta) = S n).
    { rewrite Sa, length_app. simpl. unfold n. apply Nat.add_1_r. }
    destruct self as [[v|]]; simpl Make.agree_cpc in *.
    - rewrite configure_scripted_cases, Oa, Ln in Ec. fold f c in Ec.
      destruct (os_exec os (spawned ta) c); [|discriminate].
      destruct (os_pipe os _ _ Make.yes_line); [|discriminate].
      destruct (os_pipe os _ _ Make.empty_line); [|discriminate].
      inversion Ec. split; [|reflexivity].
      rewrite !spawned_app, Sa, <- app_assoc. reflexivity.
    - apply _call_returns in Ec. destruct Ec as [Ec _].
      rewrite Ln in Ec. split; [|exact Ec].
      rewrite Ec, !spawned_app, Sa, <- app_assoc. reflexivity. }
  destruct Sc as [Sc Tc].
  assert (Lc : List.length (spawned tc) = S (S n)).
  { rewrite Sc, length_app. simpl. unfold n. lia. }
  unfold Make.clean, bind, subprocess_call in El.
  change (split "make clean") with ["make"; "clean"] in El.
  destruct (os_exec os (spawned tc) ["make"; "clean"]) as [sc|];
    [|discriminate].
  unfold ret in El. inversion El as [Tl]. rewrite Lc in Tl.
  assert (Ll : List.length (spawned tl) = S (S (S n))).
  { rewrite <- Tl, spawned_app, length_app, Lc. simpl. lia. }
  exists sc. rewrite H, Ll. clear H Ll. rewrite <- Tl. clear Tl El.
  rewrite Tc. clear Tc. rewrite Ea.
  unfold call_events.
  change (split "autoconf -o configure ac-tools/configure.ac") with a.
  change (split "make") with ["make"].
  change (split "make check") with ["make"; "check"].
  change (split "make install") with ["make"; "install"].
  destruct (Make.agree_cpc self); rewrite <- !app_assoc; reflexivity.
Qed.

Lemma run_returns_only_after_success_witness :
  exists sc : Z,
    [EvSpawn 0 ["autoconf"; "-o"; "configure"; "ac-tools/configure.ac"]
       Inherit Inherit; EvWait 0 0;
     EvSpawn 1 ["./configure"; "--prefix=$PWD/bin"; "--with-cpc-modules"]
       Inherit Inherit; EvWait 1 0;
     EvSpawn 2 ["make"; "clean"] Inherit Inherit; EvWait 2 2;
     EvSpawn 3 ["make"] Inherit Inherit; EvWait 3 0;
     EvSpawn 4 ["make"; "check"] Inherit Inherit; EvWait 4 0;
     EvSpawn 5 ["make"; "install"] Inherit Inherit; EvWait 5 0]
    = [EvSpawn 0 ["autoconf"; "-o"; "configure"; "ac-tools/configure.ac"]
         Inherit Inherit; EvWait 0 0;
       EvSpawn 1 ["./configure"; "--prefix=$PWD/bin"; "--with-cpc-modules"]
         Inherit Inherit; EvWait 1 0;
       EvSpawn 2 ["make"; "clean"] Inherit Inherit; EvWait 2 sc;
       EvSpawn 3 ["make"] Inherit Inherit; EvWait 3 0;
       EvSpawn 4 ["make"; "check"] Inherit Inherit; EvWait 4 0;
       EvSpawn 5 ["make"; "install"] Inherit Inherit; EvWait 5 0].
Proof.
  apply (run_returns_only_after_success {| Make.agree_cpc := None |}
           (os_one_fails ["make"; "clean"] 2) []
           [EvSpawn 0 ["autoconf"; "-o"; "configure"; "ac-tools/configure.ac"]
              Inherit Inherit; EvWait 0 0;
            EvSpawn 1
              ["./configure"; "--prefix=$PWD/bin"; "--with-cpc-modules"]
              Inherit Inherit; EvWait 1 0;
            EvSpawn 2 ["make"; "clean"] Inherit Inherit; EvWait 2 2;
            EvSpawn 3 ["make"] Inherit Inherit; EvWait 3 0;
            EvSpawn 4 ["make"; "check"] Inherit Inherit; EvWait 4 0;
            EvSpawn 5 ["make"; "install"] Inherit Inherit; EvWait 5 0]).
  reflexivity.
Defined.

Lemma run_value_error_witness :
  exists command p status t0,
    In command
      ["autoconf -o configure ac-tools/configure.ac";
       "./configure --prefix=$PWD/bin --with-cpc-modules";
       "make"; "make check"; "make install"]
    /\ "Install failed at make"
       = ("Install failed at " ++ command)%string
    /\ status <> 0%Z
    /\ [EvSpawn 0 ["autoconf"; "-o"; "configure"; "ac-tools/configure.ac"]
          Inherit Inherit; EvWait 0 0;
        EvOpen 0;
        EvSpawn 1 ["./configure"; "--prefix=$PWD/bin"; "--with-cpc-modules"]
          PIPE (ToFile 0);
        EvWrite 1 Make.yes_line; EvWrite 1 Make.empty_line;
        EvClose (TempFile 0);
        EvSpawn 2 ["make"; "clean"] Inherit Inherit; EvWait 2 0;
        EvSpawn 3 ["make"] Inherit Inherit; EvWait 3 2]
       = t0 ++ [EvSpawn p (split command) Inherit Inherit; EvWait p status].
Proof.
  apply (run_value_error {| Make.agree_cpc := Some "yes" |}
           (os_one_fails ["make"] 2) []).
  reflexivity.
Defined.

(** ** The run with the option unset touches no pipe and no file *)

Lemma only_calls_bind {A B : Type} (c : M A) (k : A -> M B) :
  only_calls c -> (forall a, only_calls (k a)) -> only_calls (bind c k).
Proof.
  intros Hc Hk os t. unfold bind.
  destruct (Hc os t) as [u [Eu Fu]].
  destruct (c os t) as [[a|e] t1]; simpl in Eu.
  - destruct (Hk a os t1) as [u' [Eu' Fu']].
    exists (u ++ u'). split.
    + rewrite Eu', Eu, app_assoc. reflexivity.
    + rewrite forallb_app, Fu, Fu'. reflexivity.
  - exists u. simpl. auto.
Qed.

Lemma only_calls_subprocess_call argv : only_calls (subprocess_call argv).
Proof.
  intros os t. unfold subprocess_call.
  destruct (os_exec os (spawned t) argv) as [status|]; simpl.
  - eexists. split; reflexivity.
  - exists []. rewrite app_nil_r. split; reflexivity.
Qed.

Lemma only_calls_still {A : Type} (r : result A) :
  only_calls (fun _ t => (r, t)).
Proof. intros os t. exists []. simpl. rewrite app_nil_r. auto. Qed.

Lemma only_calls_call commands : only_calls (Make._call commands).
Proof.
  induction commands as [|c rest IH]; simpl.
  - apply (only_calls_still (Ok tt)).
  - apply only_calls_bind; [apply only_calls_subprocess_call|].
    intros code. destruct (negb (code =? 0)%Z); [|exact IH].
    apply (only_calls_still (Raise _)).
Qed.

Lemma only_calls_run_unset :
  only_calls (Make.run {| Make.agree_cpc := None |}).
Proof.
  unfold Make.run.
  apply only_calls_bind; [apply only_calls_call|]. intros _.
  apply only_calls_bind; [apply only_calls_call|]. intros _.
  apply only_calls_bind; [|intros _; apply only_calls_call].
  unfold Make.clean.
  apply only_calls_bind; [apply only_calls_subprocess_call|]. intros _.
  apply (only_calls_still (Ok tt)).
Qed.

Lemma call_events_quiet (u : Trace) :
  forallb is_call_event u = true -> written u = [] /\ opened u = [].
Proof.
  induction u as [|e u IH]; intros H; [split; reflexivity|].
  simpl in H. apply andb_prop in H. destruct H as [He Hu].
  destruct e as [p argv [| |fi] [| |fo]| | | |]; simpl in He |- *;
    try discriminate; apply IH; exact Hu.
Qed.

(** With the option unset, whatever the operating system does, [run]
    only ever calls [subprocess.call]: every child it starts has the
    parent's own standard input and output, and it opens no file and
    writes to no pipe. *)
Theorem run_unset_only_calls os t :
  exists u,
    snd (Make.run {| Make.agree_cpc := None |} os t) = t ++ u
    /\ forallb is_call_event u = true
    /\ written (snd (Make.run {| Make.agree_cpc := None |} os t))
       = written t
    /\ opened (snd (Make.run {| Make.agree_cpc := None |} os t))
       = opened t.
Proof.
  destruct (only_calls_run_unset os t) as [u [Eu Fu]].
  destruct (call_events_quiet u Fu) as [Wu Ou].
  exists u. rewrite Eu, written_app, opened_app, Wu, Ou, !app_nil_r. auto.
Qed.

(** ** [split] and command lines *)

Lemma append_empty_r (s : string) : (s ++ "")%string = s.
Proof. induction s as [|ch s IH]; simpl; [|rewrite IH]; reflexivity. Qed.

Lemma append_char_assoc (cur : string) (ch : ascii) (tok : string) :
  ((cur ++ String ch "") ++ tok)%string = (cur ++ String ch tok)%string.
Proof. induction cur as [|x cur IH]; simpl; [|rewrite IH]; reflexivity. Qed.

(** Reading a run of characters that are not whitespace only grows the
    token being read. *)
Lemma split_from_word (tok : string) : forall rest cur,
  (forall ch, In ch (list_ascii_of_string tok) -> isspace ch = false) ->
  split_from (tok ++ rest) cur = split_from rest (cur ++ tok).
Proof.
  induction tok as [|x tok IH]; intros rest cur H; simpl.
  - rewrite append_empty_r. reflexivity.
  - rewrite (H x) by (left; reflexivity).
    rewrite IH by (intros ch Hin; apply H; right; exact Hin).
    rewrite append_char_assoc. reflexivity.
Qed.

Lemma flush_token_word (w : string) :
  w <> EmptyString -> flush_token w = [w].
Proof. destruct w; [contradiction|reflexivity]. Qed.

(** Whitespace in front of a line is dropped. *)
Lemma split_from_lead (b : string) : forall rest,
  is_blank b ->
  split_from (b ++ rest) EmptyString = split_from rest EmptyString.
Proof.
  induction b as [|ch b IH]; intros rest H; simpl; [reflexivity|].
  rewrite (proj1 (H ch (or_introl eq_refl))). simpl.
  apply IH. intros x Hx. apply H. right. exact Hx.
Qed.

(** A run of whitespace, however long, ends the token being read. *)
Lemma split_from_blank (b : string) : forall rest cur,
  is_blank b ->
  b <> EmptyString ->
  split_from (b ++ rest) cur
  = flush_token cur ++ split_from rest EmptyString.
Proof.
  destruct b as [|ch b]; intros rest cur H Hne; [contradiction|].
  simpl. rewrite (proj1 (H ch (or_introl eq_refl))).
  rewrite split_from_lead; [reflexivity|].
  intros x Hx. apply H. right. exact Hx.
Qed.

Lemma split_from_words (pairs : list (string * string)) :
  separated pairs ->
  split_from (words_text pairs) EmptyString = map fst pairs.
Proof.
  induction pairs as [|[w b] rest IH]; intros H; [reflexivity|].
  destruct H as ([Hne Hw] & Hb & Hlast & Hrest). simpl.
  rewrite split_from_word by (intros ch Hin; apply (Hw ch Hin)).
  simpl append.
  destruct b as [|x b].
  - destruct rest as [|pr rest].
    + simpl. rewrite (flush_token_word w Hne). reflexivity.
    + exfalso. apply Hlast; [discriminate|reflexivity].
  - rewrite split_from_blank by (exact Hb || discriminate).
    rewrite (flush_token_word w Hne), (IH Hrest). reflexivity.
Qed.

(** On a line made of words of plain characters, any run of plain
    whitespace between two of them and any before the first and behind
    the last,
    [command.split()] gives exactly the words, in order: the line is
    cut at each run of whitespace and nowhere else. *)
Theorem split_separated_words (lead : string)
    (pairs : list (string * string)) :
  is_blank lead ->
  separated pairs ->
  split (lead ++ words_text pairs) = map fst pairs.
Proof.
  intros Hlead Hpairs. unfold split.
  rewrite split_from_lead by exact Hlead.
  apply split_from_words. exact Hpairs.
Qed.

Lemma split_separated_words_witness :
  split "  make   check " = ["make"; "check"].
Proof.
  apply (split_separated_words "  " [("make", "   "); ("check", " ")]).
  - intros ch H. simpl in H.
    repeat (destruct H as [<-|H]; [split; reflexivity|]). contradiction.
  - assert (W : forall w,
               w <> EmptyString ->
               forallb (fun ch => negb (isspace ch) && plain ch)
                 (list_ascii_of_string w) = true ->
               is_word w).
    { intros w Hne Hall. split; [exact Hne|]. intros ch Hin.
      rewrite forallb_forall in Hall. specialize (Hall ch Hin).
      apply andb_prop in Hall. destruct Hall as [Hs Hl].
      split; [destruct (isspace ch); [discriminate|reflexivity]|exact Hl]. }
    assert (B : forall b,
               forallb (fun ch => isspace ch && plain ch)
                 (list_ascii_of_string b) = true ->
               is_blank b).
    { intros b Hall ch Hin. rewrite forallb_forall in Hall.
      apply andb_prop. apply Hall. exact Hin. }
    simpl. split; [apply W; [discriminate|reflexivity]|].
    split; [apply B; reflexivity|]. split; [intros _; discriminate|].
    split; [apply W; [discriminate|reflexivity]|].
    split; [apply B; reflexivity|]. split; [intros N; contradiction|exact I].
Defined.

(** Every line of plain characters is some whitespace followed by words,
    each with its whitespace behind it. *)
Lemma line_of_words (s : string) :
  plain_text s ->
  exists lead pairs,
    s = (lead ++ words_text pairs)%string
    /\ is_blank lead
    /\ separated pairs.
Proof.
  induction s as [|ch s IH]; intros H.
  - exists EmptyString, []. split; [reflexivity|].
    split; [intros x []|exact I].
  - destruct IH as (lead & pairs & Es & Hlead & Hpairs).
    { intros x Hx. apply H. right. exact Hx. }
    assert (Hch : plain ch = true) by (apply H; left; reflexivity).
    destruct (isspace ch) eqn:Esp.
    + exists (String ch lead), pairs. split; [|split].
      * simpl. rewrite <- Es. reflexivity.
      * intros x [<-|Hx]; [split; assumption|apply Hlead; exact Hx].
      * exact Hpairs.
    + assert (Hone : is_word (String ch EmptyString)).
      { split; [discriminate|]. intros x [<-|[]]. split; assumption. }
      destruct lead as [|l0 lead].
      * destruct pairs as [|[w b] rest].
        -- exists EmptyString, [(String ch EmptyString, EmptyString)].
           split; [|split].
           ++ rewrite Es. reflexivity.
           ++ intros x [].
           ++ simpl. split; [exact Hone|]. split; [intros x []|].
              split; [intros N; contradiction|exact I].
        -- exists EmptyString, ((String ch w, b) :: rest).
           destruct Hpairs as ([Hne Hw] & Hb & Hlast & Hrest).
           split; [|split].
           ++ rewrite Es. reflexivity.
           ++ intros x [].
           ++ simpl. split; [|auto]. split; [discriminate|].
              intros x [<-|Hx]; [split; assumption|apply Hw; exact Hx].
      * exists EmptyString, ((String ch EmptyString, String l0 lead) :: pairs).
        split; [|split].
        -- rewrite Es. reflexivity.
        -- intros x [].
        -- simpl. split; [exact Hone|]. split; [exact Hlead|].
           split; [intros _; discriminate|exact Hpairs].
Qed.

(** For every command line of plain characters, [command.split()] is
    the list of the words of the line: the line is whitespace, then
    words each followed by whitespace (not empty but behind the last
    word), and the tokens are these words, in order. *)
Theorem split_is_the_words (s : string) :
  plain_text s ->
  exists lead pairs,
    s = (lead ++ words_text pairs)%string
    /\ is_blank lead
    /\ separated pairs
    /\ split s = map fst pairs.
Proof.
  intros H. destruct (line_of_words s H) as (lead & pairs & Es & Hl & Hp).
  exists lead, pairs.
  split; [exact Es|]. split; [exact Hl|]. split; [exact Hp|].
  rewrite Es. unfold split.
  rewrite split_from_lead by exact Hl.
  apply split_from_words. exact Hp.
Qed.

Lemma split_is_the_words_witness :
  exists lead pairs,
    "make check"
    = (lead ++ words_text pairs)%string
    /\ is_blank lead
    /\ separated pairs
    /\ split "make check" = map fst pairs.
Proof.
  apply (split_is_the_words "make check").
  intros ch H. simpl in H.
  repeat (destruct H as [<-|H]; [reflexivity|]). contradiction.
Defined.
